(** * automerge-action: the per-pull-request decision engine

    A shallow embedding of [lib/update.js] (label resolution, review
    validation, the merge and rebase executors) and of the per-PR
    handler of the orchestrator, followed by the properties checked
    against them.

    The platform client ([octokit]) and the [git] module are
    collaborators: every request the code awaits is recorded in a
    history, and the collaborator's answer may depend on everything
    requested so far.  Calls to the logger are left out: they never
    influence control flow. *)

From Stdlib Require Import String List ZArith Bool Lia Sorted.
Import ListNotations.
Local Open Scope string_scope.
Local Open Scope Z_scope.
Local Open Scope list_scope.

(** ** JavaScript values the code computes with *)

(** The time value of a [Date]: [new Date(s)] holds a finite number of
    milliseconds, or NaN when [s] does not parse (Invalid Date). *)
Inductive TimeValue : Type :=
| Finite (ms : Z)
| NaN.

(** [d < lastLabeledDate].  Both sides are converted to numbers; the
    comparison is false as soon as one of them is NaN, and [undefined]
    (here [None]) converts to NaN. *)
Definition date_lt (d : TimeValue) (lastLabeledDate : option TimeValue) : bool :=
  match d, lastLabeledDate with
  | Finite x, Some (Finite y) => x <? y
  | _, _ => false
  end.

(** The values [needsChangesAfterLabeled] ranges over. *)
Inductive JsVal : Type :=
| JsBool (b : bool)
| JsNumber (n : Z)
| JsUndefined.

Definition truthy (v : JsVal) : bool :=
  match v with
  | JsBool b => b
  | JsNumber n => negb (n =? 0)
  | JsUndefined => false
  end.

(** [a || b] *)
Definition js_or (a b : JsVal) : JsVal := if truthy a then a else b.

(** [!a] *)
Definition js_not (a : JsVal) : bool := negb (truthy a).

(** [xs.includes(x)] on an array of strings. *)
Definition includes (xs : list string) (x : string) : bool :=
  existsb (String.eqb x) xs.

(** A falsy argument ([!dir]): null, undefined or the empty string. *)
Definition falsy (s : option string) : bool :=
  match s with
  | None => true
  | Some s => String.eqb s ""
  end.

(** ** Data model *)

Record Label : Type := { label_name : string }.

Record Owner : Type := { login : string }.

Record Repo : Type := {
  full_name : string;
  repo_name : string;
  owner : Owner
}.

Record Head : Type := {
  head_repo : Repo;
  head_ref : string;
  head_sha : string
}.

Record Base : Type := {
  base_repo : Repo;
  base_ref : string
}.

Record PullRequest : Type := {
  number : Z;
  title : string;
  pr_state : string;
  merged : bool;
  head : Head;
  base : Base;
  labels : list Label
}.

(** A timeline event; only [labeled] and [unlabeled] events carry a label.
    [created_at] is the time value of [new Date(event.created_at)]. *)
Record Event : Type := {
  event : string;
  label : option Label;
  created_at : TimeValue
}.

(** [submitted_at] is the time value of [new Date(review.submitted_at)]. *)
Record Review : Type := {
  review_id : Z;
  review_state : string;
  submitted_at : TimeValue
}.

Record ReviewComment : Type := { comment_body : string }.

Record MergeData : Type := { sha : string }.

(** The answer of the platform's merge primitive; a 204 has no body. *)
Record MergeResponse : Type := {
  status : Z;
  data : option MergeData
}.

Record LabelsConfig : Type := {
  blocking : list string;
  required : list string
}.

Record Config : Type := {
  repo : string;
  automerge : string;
  autorebase : string;
  skipAdvancedApprovalValidation : string;
  config_labels : LabelsConfig
}.

(** ** Effects *)

(** The two kinds of failure: the benign skip and everything else.
    [TypeError] is what a property read on null raises; [Rejected] is a
    failure raised by a collaborator. *)
Inductive Exn : Type :=
| NeutralExitError
| Error (message : string)
| TypeError
| Rejected (reason : string).

Definition isNeutral (e : Exn) : bool :=
  match e with
  | NeutralExitError => true
  | _ => false
  end.

(** Every request issued to a collaborator, with its arguments. *)
Inductive Call : Type :=
| PullsListReviews (owner repo : string) (pull_number : Z)
| IssuesListEvents (owner repo : string) (issue_number : Z)
| PullsGetCommentsForReview (owner repo : string) (pull_number review_id : Z)
| IssuesUpdate (owner repo : string) (issue_number : Z) (labels : list string)
| IssuesCreateComment (owner repo : string) (issue_number : Z) (body : string)
| PullsGet (owner repo : string) (pull_number : Z)
| ReposMerge (owner repo base head : string)
| GitClone (url dir : option string) (ref : string)
| GitFetch (dir : option string) (ref : string)
| GitFetchUntilMergeBase (dir : option string) (ref : string) (timeout : Z)
| GitHead (dir : option string)
| GitSha (dir : option string) (ref : string)
| GitRebase (dir : option string) (onto : string)
| GitPush (dir : option string) (force : bool) (ref : string)
| SetTimeout (ms : Z).

Definition History : Type := list Call.

(** What a collaborator answers: the awaited value, or a rejection. *)
Definition Answer (A : Type) : Type := (string + A)%type.

(** The platform client.  Each method sees the requests issued before it. *)
Record Octokit : Type := {
  pulls_listReviews : History -> string -> string -> Z -> Answer (list Review);
  issues_listEvents : History -> string -> string -> Z -> Answer (list Event);
  pulls_getCommentsForReview :
    History -> string -> string -> Z -> Z -> Answer (option (list ReviewComment));
  issues_update : History -> string -> string -> Z -> list string -> Answer unit;
  issues_createComment : History -> string -> string -> Z -> string -> Answer unit;
  pulls_get : History -> string -> string -> Z -> Answer string;
  repos_merge : History -> string -> string -> string -> string -> Answer MergeResponse
}.

(** The [git] module. *)
Record Git : Type := {
  git_clone : History -> option string -> option string -> string -> Answer unit;
  git_fetch : History -> option string -> string -> Answer unit;
  git_fetchUntilMergeBase : History -> option string -> string -> Z -> Answer unit;
  git_head : History -> option string -> Answer string;
  git_sha : History -> option string -> string -> Answer string;
  git_rebase : History -> option string -> string -> Answer unit;
  git_push : History -> option string -> bool -> string -> Answer unit
}.

Record Context : Type := {
  octokit : option Octokit;
  token : string;
  config : Config
}.

Inductive Result (A : Type) : Type :=
| Return (a : A)
| Throw (e : Exn).
Arguments Return {A} a.
Arguments Throw {A} e.

(** An asynchronous computation: it extends the history of requests and
    returns or throws. *)
Definition M (A : Type) : Type := History -> Result A * History.

Definition ret {A} (a : A) : M A := fun h => (Return a, h).

Definition throw {A} (e : Exn) : M A := fun h => (Throw e, h).

Definition bind {A B} (m : M A) (k : A -> M B) : M B :=
  fun h =>
    match m h with
    | (Return a, h') => k a h'
    | (Throw e, h') => (Throw e, h')
    end.

Declare Scope js_scope.
Delimit Scope js_scope with js.
Notation "x <- m ;; k" := (bind m (fun x => k))
  (at level 100, m at next level, right associativity) : js_scope.
Notation "m ;;; k" := (bind m (fun _ => k))
  (at level 100, right associativity) : js_scope.
Local Open Scope js_scope.

(** [await] on a collaborator's method: the request is recorded, the
    answer is the one the collaborator gives after the requests so far. *)
Definition await {A} (c : Call) (answer : History -> Answer A) : M A :=
  fun h =>
    (match answer h with
     | inr a => Return a
     | inl reason => Throw (Rejected reason)
     end, h ++ [c]).

(** A method call on the client handle, which may be null. *)
Definition on_octokit {A} (o : option Octokit) (f : Octokit -> M A) : M A :=
  match o with
  | Some api => f api
  | None => throw TypeError
  end.

(** [await new Promise(resolve => setTimeout(() => resolve(), ms))] *)
Definition sleep (ms : Z) : M unit :=
  await (SetTimeout ms) (fun _ => inr tt).

(** ** lib/update.js *)

Module Update.

Definition FETCH_TIMEOUT : Z := 60000.

Definition BLOCKED_STATE : string := "blocked".

Definition AUTOMERGE_LABEL_DROPPED : string :=
  "Automerge label was dropped and added again due to the fact that either someone requested changes"
  ++ ", you do not have a review, or someone who reviewed and approved your pr left comments. ".

(** The three coordinates every platform request is addressed with. *)
Definition pr_owner (pullRequest : PullRequest) : string :=
  login (owner (head_repo (head pullRequest))).

Definition pr_repo (pullRequest : PullRequest) : string :=
  repo_name (head_repo (head pullRequest)).

(** [pullRequest.head.sha], the head commit recorded in the snapshot. *)
Definition recordedHead (pullRequest : PullRequest) : string :=
  head_sha (head pullRequest).

(** [config.skipAdvancedApprovalValidation], the skip-validation label. *)
Definition skipLabel (config : Config) : string :=
  skipAdvancedApprovalValidation config.

(** The loop of [dropAutoMergeLabel]: push the name of every label that
    is not an action label. *)
Fixpoint keptLabels (actions : list string) (pr_labels : list Label)
    (labels : list string) : list string :=
  match pr_labels with
  | [] => labels
  | label :: rest =>
      if negb (includes actions (label_name label))
      then keptLabels actions rest (labels ++ [label_name label])
      else keptLabels actions rest labels
  end.

Definition dropAutoMergeLabel (octokit : option Octokit)
    (pullRequest : PullRequest) (actions : list string) : M unit :=
  let labels := keptLabels actions (labels pullRequest) [] in
  _ <- on_octokit octokit (fun api =>
         await (IssuesUpdate (pr_owner pullRequest) (pr_repo pullRequest)
                  (number pullRequest) labels)
               (fun h => issues_update api h (pr_owner pullRequest)
                           (pr_repo pullRequest) (number pullRequest) labels)) ;;
  _ <- on_octokit octokit (fun api =>
         await (IssuesCreateComment (pr_owner pullRequest) (pr_repo pullRequest)
                  (number pullRequest) AUTOMERGE_LABEL_DROPPED)
               (fun h => issues_createComment api h (pr_owner pullRequest)
                           (pr_repo pullRequest) (number pullRequest)
                           AUTOMERGE_LABEL_DROPPED)) ;;
  ret tt.

(** First loop of [isPrReviewed], over the reversed events: the date of
    the first [labeled] event of an action label, or undefined. *)
Fixpoint lastLabeled (actions : list string) (events : list Event)
    : M (option TimeValue) :=
  match events with
  | [] => ret None
  | e :: rest =>
      if String.eqb (event e) "labeled" then
        match label e with
        | None => throw TypeError
        | Some l =>
            if includes actions (label_name l)
            then ret (Some (created_at e))
            else lastLabeled actions rest
        end
      else lastLabeled actions rest
  end.

(** [comments && comments.length] *)
Definition commentsLength (comments : option (list ReviewComment)) : JsVal :=
  match comments with
  | None => JsUndefined
  | Some cs => JsNumber (Z.of_nat (length cs))
  end.

(** Second loop of [isPrReviewed], over the reversed reviews. *)
Fixpoint reviewLoop (api : Octokit) (pullRequest : PullRequest)
    (lastLabeledDate : option TimeValue) (reviews : list Review)
    (needsChangesAfterLabeled : JsVal) : M JsVal :=
  match reviews with
  | [] => ret needsChangesAfterLabeled
  | review :: rest =>
      if date_lt (submitted_at review) lastLabeledDate
      then ret needsChangesAfterLabeled
      else if String.eqb (review_state review) "CHANGES_REQUESTED"
              || String.eqb (review_state review) "APPROVED"
      then
        comments <- await (PullsGetCommentsForReview (pr_owner pullRequest)
                             (pr_repo pullRequest) (number pullRequest)
                             (review_id review))
                          (fun h => pulls_getCommentsForReview api h
                                      (pr_owner pullRequest) (pr_repo pullRequest)
                                      (number pullRequest) (review_id review)) ;;
        reviewLoop api pullRequest lastLabeledDate rest
          (js_or needsChangesAfterLabeled (commentsLength comments))
      else
        reviewLoop api pullRequest lastLabeledDate rest (JsBool true)
  end.

Definition isPrReviewed (octokit : option Octokit) (pullRequest : PullRequest)
    (actions : list string) : M bool :=
  on_octokit octokit (fun api =>
    reviews <- await (PullsListReviews (pr_owner pullRequest) (pr_repo pullRequest)
                        (number pullRequest))
                     (fun h => pulls_listReviews api h (pr_owner pullRequest)
                                 (pr_repo pullRequest) (number pullRequest)) ;;
    events <- await (IssuesListEvents (pr_owner pullRequest) (pr_repo pullRequest)
                       (number pullRequest))
                    (fun h => issues_listEvents api h (pr_owner pullRequest)
                                (pr_repo pullRequest) (number pullRequest)) ;;
    lastLabeledDate <- lastLabeled actions (rev events) ;;
    needsChangesAfterLabeled <-
      reviewLoop api pullRequest lastLabeledDate (rev reviews) (JsBool false) ;;
    ret (js_not needsChangesAfterLabeled)).

Definition pullRequestState (octokit : option Octokit)
    (pullRequest : PullRequest) : M string :=
  on_octokit octokit (fun api =>
    await (PullsGet (pr_owner pullRequest) (pr_repo pullRequest)
             (number pullRequest))
          (fun h => pulls_get api h (pr_owner pullRequest) (pr_repo pullRequest)
                      (number pullRequest))).

Definition merge (octokit : option Octokit) (pullRequest : PullRequest)
    : M string :=
  state <- pullRequestState octokit pullRequest ;;
  if String.eqb state "behind" then
    let headRef := head_ref (head pullRequest) in
    let baseRef := base_ref (base pullRequest) in
    response <- on_octokit octokit (fun api =>
      await (ReposMerge (pr_owner pullRequest) (pr_repo pullRequest)
               headRef baseRef)
            (fun h => repos_merge api h (pr_owner pullRequest)
                        (pr_repo pullRequest) headRef baseRef)) ;;
    if status response =? 204 then
      ret (recordedHead pullRequest)
    else
      match data response with
      | None => throw TypeError
      | Some d =>
          _ <- sleep 30000 ;;
          ret (sha d)
      end
  else if String.eqb state "clean" || String.eqb state "has_hooks" then
    ret (recordedHead pullRequest)
  else
    throw NeutralExitError.

Section WithGit.

Variable git : Git.

Definition rebase (dir url : option string) (pullRequest : PullRequest)
    : M string :=
  let headRef := head_ref (head pullRequest) in
  let baseRef := base_ref (base pullRequest) in
  _ <- await (GitClone url dir headRef)
             (fun h => git_clone git h url dir headRef) ;;
  _ <- await (GitFetch dir baseRef) (fun h => git_fetch git h dir baseRef) ;;
  _ <- await (GitFetchUntilMergeBase dir baseRef FETCH_TIMEOUT)
             (fun h => git_fetchUntilMergeBase git h dir baseRef FETCH_TIMEOUT) ;;
  head <- await (GitHead dir) (fun h => git_head git h dir) ;;
  if negb (String.eqb head (recordedHead pullRequest)) then
    throw NeutralExitError
  else
    onto <- await (GitSha dir baseRef) (fun h => git_sha git h dir baseRef) ;;
    _ <- await (GitRebase dir onto) (fun h => git_rebase git h dir onto) ;;
    newHead <- await (GitHead dir) (fun h => git_head git h dir) ;;
    _ <- (if String.eqb newHead head then ret tt
          else
            _ <- await (GitPush dir true headRef)
                       (fun h => git_push git h dir true headRef) ;;
            sleep 30000) ;;
    ret newHead.

(** The label loop of [update]: resolves the action and records the
    skip-validation marker; a second action label is ambiguous. *)
Fixpoint resolveLabels (config : Config) (actions : list string)
    (pr_labels : list Label) (action : option string)
    (skipAdvancedApprovalValidation : bool) : M (option string * bool) :=
  match pr_labels with
  | [] => ret (action, skipAdvancedApprovalValidation)
  | label :: rest =>
      action' <-
        (if includes actions (label_name label) then
           match action with
           | None => ret (Some (label_name label))
           | Some a =>
               throw (Error ("ambiguous labels: " ++ a ++ " + " ++ label_name label))
           end
         else ret action) ;;
      resolveLabels config actions rest action'
        (if String.eqb (label_name label) (skipLabel config)
         then true else skipAdvancedApprovalValidation)
  end.

Definition update (context : Context) (dir url : option string)
    (pullRequest : PullRequest) : M string :=
  if merged pullRequest then throw NeutralExitError
  else if negb (String.eqb (full_name (head_repo (head pullRequest)))
                           (full_name (base_repo (base pullRequest))))
  then throw NeutralExitError
  else
    let octokit := octokit context in
    let config := config context in
    let automerge := automerge config in
    let autorebase := autorebase config in
    let actions := [automerge; autorebase] in
    resolved <- resolveLabels config actions (labels pullRequest) None false ;;
    let '(action, skipAdvancedApprovalValidation) := resolved in
    match action with
    | None => throw NeutralExitError
    | Some action =>
        _ <- (if negb skipAdvancedApprovalValidation then
                isReviewedCorrectly <- isPrReviewed octokit pullRequest actions ;;
                _ <- (if negb isReviewedCorrectly then
                        _ <- dropAutoMergeLabel octokit pullRequest actions ;;
                        throw NeutralExitError
                      else ret tt) ;;
                if match octokit with None => true | Some _ => false end
                   || falsy dir || falsy url
                then throw (Error "invalid arguments!")
                else ret tt
              else ret tt) ;;
        if String.eqb action automerge then
          merge octokit pullRequest
        else if String.eqb action autorebase then
          rebase dir url pullRequest
        else
          throw (Error ("invalid action: " ++ action))
    end.

End WithGit.

End Update.

(** ** The orchestrator's per-PR handler *)

Module Orchestrator.

Definition MAX_PR_COUNT : Z := 1000.

Definition skipPullRequest (context : Context) (pullRequest : PullRequest)
    : bool :=
  let config := config context in
  if existsb (fun label => includes (blocking (config_labels config))
                             (label_name label))
             (labels pullRequest)
  then true
  else
    let labels := map label_name (labels pullRequest) in
    existsb (fun required => negb (includes labels required))
            (required (config_labels config)).

Section Collaborators.

Variable git : Git.

(** [tmpdir] of [./common]: runs the callback on a scoped directory. *)
Variable tmpdir : (string -> M string) -> M string.

(** [merge] of [./merge]: merges the pull request at the given head. *)
Variable merge : Context -> PullRequest -> string -> M unit.

Definition updateAndMergePullRequest (context : Context)
    (pullRequest : PullRequest) : M unit :=
  if negb (String.eqb (pr_state pullRequest) "open") then
    throw NeutralExitError
  else if skipPullRequest context pullRequest then
    throw NeutralExitError
  else
    let token := token context in
    let repo := full_name (head_repo (head pullRequest)) in
    let cloneUrl :=
      ("https://x-access-token:" ++ token ++ "@github.com/" ++ repo ++ ".git")%string in
    head <- tmpdir (fun path =>
              Update.update git context (Some path) (Some cloneUrl) pullRequest) ;;
    merge context pullRequest head.

(** The [try]/[catch] around one pull request: a benign skip is logged
    at trace level, any other exception as an error; both are swallowed. *)
Definition caught (attempt : M unit) : M unit :=
  fun h =>
    match attempt h with
    | (Return _, h') => (Return tt, h')
    | (Throw e, h') =>
        if isNeutral e then (Return tt, h') else (Return tt, h')
    end.

(** The loop of [checkAndAutomergeAllPullRequests] over the pull requests
    the listing returned. *)
Fixpoint automergeEach (context : Context) (pullRequests : list PullRequest)
    : M unit :=
  match pullRequests with
  | [] => ret tt
  | pullRequest :: rest =>
      _ <- caught (updateAndMergePullRequest context pullRequest) ;;
      automergeEach context rest
  end.

End Collaborators.

End Orchestrator.

(** ** Vocabulary of the properties *)

(** The configured action set, as [update] builds it. *)
Definition actionSet (config : Config) : list string :=
  [automerge config; autorebase config].

(** A [labeled] event of one of the action labels. *)
Definition actionLabeled (actions : list string) (e : Event) : bool :=
  String.eqb (event e) "labeled"
  && match label e with
     | Some l => includes actions (label_name l)
     | None => false
     end.

(** A timeline as the platform sends it: [labeled] events carry a label. *)
Definition carriesLabel (e : Event) : bool :=
  negb (String.eqb (event e) "labeled")
  || match label e with Some _ => true | None => false end.

(** A review that counts against the pull request: a verdict other than
    [APPROVED] and [CHANGES_REQUESTED], or one of these two with at
    least one attached comment. *)
Definition destabilizing (comments : Z -> option (list ReviewComment))
    (r : Review) : bool :=
  if String.eqb (review_state r) "CHANGES_REQUESTED"
     || String.eqb (review_state r) "APPROVED"
  then match comments (review_id r) with
       | Some (_ :: _) => true
       | _ => false
       end
  else true.

(** The reviews are listed oldest first: no review is submitted strictly
    before one listed ahead of it. *)
Definition chronological (reviews : list Review) : Prop :=
  StronglySorted
    (fun a b => date_lt (submitted_at b) (Some (submitted_at a)) = false)
    reviews.

(** The platform presents a fixed snapshot of the pull request's reviews,
    timeline and review comments, whatever was requested before. *)
Record serves (api : Octokit) (pr : PullRequest) (reviews : list Review)
    (events : list Event) (comments : Z -> option (list ReviewComment))
    : Prop := {
  serves_reviews : forall h,
    pulls_listReviews api h (Update.pr_owner pr) (Update.pr_repo pr) (number pr)
    = inr reviews;
  serves_events : forall h,
    issues_listEvents api h (Update.pr_owner pr) (Update.pr_repo pr) (number pr)
    = inr events;
  serves_comments : forall h id,
    pulls_getCommentsForReview api h (Update.pr_owner pr) (Update.pr_repo pr)
      (number pr) id
    = inr (comments id)
}.

(** ** Sample inputs *)

Definition sampleConfig : Config :=
  {| repo := "acme/widgets";
     automerge := "automerge";
     autorebase := "autorebase";
     skipAdvancedApprovalValidation := "skip-validation";
     config_labels := {| blocking := ["blocking-label"]; required := [] |} |}.

Definition sampleRepo (name : string) : Repo :=
  {| full_name := name; repo_name := "widgets"; owner := {| login := "acme" |} |}.

Definition samplePR (n : Z) (st : string) (isMerged : bool) (headRepo : string)
    (names : list string) : PullRequest :=
  {| number := n;
     title := "Add widget";
     pr_state := st;
     merged := isMerged;
     head := {| head_repo := sampleRepo headRepo;
                head_ref := "feature";
                head_sha := "1111111" |};
     base := {| base_repo := sampleRepo "acme/widgets"; base_ref := "master" |};
     labels := map (fun s => {| label_name := s |}) names |}.

(** A platform that presents the given snapshot and accepts every
    mutation. *)
Definition snapshotOctokit (reviews : list Review) (events : list Event)
    (comments : Z -> option (list ReviewComment)) (mergeable_state : string)
    (merging : Answer MergeResponse) : Octokit :=
  {| pulls_listReviews := fun _ _ _ _ => inr reviews;
     issues_listEvents := fun _ _ _ _ => inr events;
     pulls_getCommentsForReview := fun _ _ _ _ id => inr (comments id);
     issues_update := fun _ _ _ _ _ => inr tt;
     issues_createComment := fun _ _ _ _ _ => inr tt;
     pulls_get := fun _ _ _ _ => inr mergeable_state;
     repos_merge := fun _ _ _ _ _ => merging |}.

Definition rebased (h : History) : bool :=
  existsb (fun c => match c with GitRebase _ _ => true | _ => false end) h.

(** A working copy whose HEAD is [before] until a rebase ran and [after]
    from then on; every step succeeds. *)
Definition sampleGit (before after onto : string) : Git :=
  {| git_clone := fun _ _ _ _ => inr tt;
     git_fetch := fun _ _ _ => inr tt;
     git_fetchUntilMergeBase := fun _ _ _ _ => inr tt;
     git_head := fun h _ => inr (if rebased h then after else before);
     git_sha := fun _ _ _ => inr onto;
     git_rebase := fun _ _ _ => inr tt;
     git_push := fun _ _ _ _ => inr tt |}.

Definition labeledAt (name : string) (t : Z) : Event :=
  {| event := "labeled";
     label := Some {| label_name := name |};
     created_at := Finite t |}.

Definition reviewAt (id : Z) (st : string) (t : Z) : Review :=
  {| review_id := id; review_state := st; submitted_at := Finite t |}.

Definition noComments : Z -> option (list ReviewComment) := fun _ => Some [].

Definition oneCommentOn (id : Z) : Z -> option (list ReviewComment) :=
  fun i => if i =? id then Some [{| comment_body := "nit" |}] else Some [].

Definition sampleContext (api : option Octokit) : Context :=
  {| octokit := api; token := "t0k3n"; config := sampleConfig |}.

Definition sampleActions : list string := actionSet sampleConfig.

(** PR #42 of the end-to-end scenario: one action label. *)
Definition pr42 : PullRequest :=
  samplePR 42 "open" false "acme/widgets" ["automerge"].

(** A timeline on which only another label was ever applied. *)
Definition bugTimeline : list Event := [labeledAt "bug" 100].

(** A timeline whose most recent action label was applied at 100. *)
Definition relabeledTimeline : list Event :=
  [labeledAt "automerge" 10; labeledAt "automerge" 100; labeledAt "bug" 150].

(** A request for changes before the label, an approval after it. *)
Definition twoReviews : list Review :=
  [reviewAt 1 "CHANGES_REQUESTED" 50; reviewAt 2 "APPROVED" 200].

(** A comment-only review and no action label on the timeline. *)
Definition commentedOctokit : Octokit :=
  snapshotOctokit [reviewAt 1 "COMMENTED" 50] bugTimeline noComments
    "clean" (inl "unused").

(** A comment-only review after the action label was applied. *)
Definition unstableOctokit : Octokit :=
  snapshotOctokit [reviewAt 1 "COMMENTED" 200] [labeledAt "automerge" 100]
    noComments "clean" (inl "unused").

Definition mergedTo (s : string) : Answer MergeResponse :=
  inr {| status := 201; data := Some {| sha := s |} |}.

Definition upToDate : Answer MergeResponse :=
  inr {| status := 204; data := None |}.

Definition stateOctokit (mergeable_state : string)
    (merging : Answer MergeResponse) : Octokit :=
  snapshotOctokit [] [labeledAt "automerge" 100] noComments mergeable_state merging.

(** A scoped directory and a final merge that do nothing else. *)
Definition sampleTmpdir (callback : string -> M string) : M string :=
  callback "/tmp/automerge".

Definition sampleMerge (_ : Context) (_ : PullRequest) (_ : string) : M unit :=
  ret tt.

(** The reviews the newest-first walk reaches: those ahead of the first
    one submitted strictly before the reference date. *)
Fixpoint inspected (lastLabeledDate : option TimeValue) (reviews : list Review)
    : list Review :=
  match reviews with
  | [] => []
  | r :: rest =>
      if date_lt (submitted_at r) lastLabeledDate then []
      else r :: inspected lastLabeledDate rest
  end.

(** What the label loop of [update] computes, by the action labels met. *)
Definition resolution (action : option string) (found : list string)
    (skip : bool) (h : History) : Result (option string * bool) * History :=
  match action, found with
  | None, [] => (Return (None, skip), h)
  | None, [a] => (Return (Some a, skip), h)
  | Some a, [] => (Return (Some a, skip), h)
  | None, a :: b :: _ => (Throw (Error ("ambiguous labels: " ++ a ++ " + " ++ b)), h)
  | Some a, b :: _ => (Throw (Error ("ambiguous labels: " ++ a ++ " + " ++ b)), h)
  end.

(** The requests of the executors and of the remediation path. *)
Definition askState (pr : PullRequest) : Call :=
  PullsGet (Update.pr_owner pr) (Update.pr_repo pr) (number pr).

Definition askMerge (pr : PullRequest) : Call :=
  ReposMerge (Update.pr_owner pr) (Update.pr_repo pr)
    (head_ref (head pr)) (base_ref (base pr)).

Definition askLabels (pr : PullRequest) (names : list string) : Call :=
  IssuesUpdate (Update.pr_owner pr) (Update.pr_repo pr) (number pr) names.

Definition askComment (pr : PullRequest) (body : string) : Call :=
  IssuesCreateComment (Update.pr_owner pr) (Update.pr_repo pr) (number pr) body.

(** The reads the rebase executor starts with. *)
Definition cloned (url dir : option string) (pr : PullRequest) : Call :=
  GitClone url dir (head_ref (head pr)).

Definition fetched (dir : option string) (pr : PullRequest) : Call :=
  GitFetch dir (base_ref (base pr)).

Definition deepened (dir : option string) (pr : PullRequest) : Call :=
  GitFetchUntilMergeBase dir (base_ref (base pr)) Update.FETCH_TIMEOUT.

(** The labels of a pull request outside the action set, in their order. *)
Definition nonActionLabels (actions : list string) (pr : PullRequest)
    : list string :=
  map label_name
      (filter (fun l => negb (includes actions (label_name l))) (labels pr)).

(** The requests that only read the reviews and the timeline. *)
Definition reviewRead (c : Call) : bool :=
  match c with
  | PullsListReviews _ _ _
  | IssuesListEvents _ _ _
  | PullsGetCommentsForReview _ _ _ _ => true
  | _ => false
  end.

Definition askReviews (pr : PullRequest) : Call :=
  PullsListReviews (Update.pr_owner pr) (Update.pr_repo pr) (number pr).

Definition askEvents (pr : PullRequest) : Call :=
  IssuesListEvents (Update.pr_owner pr) (Update.pr_repo pr) (number pr).

(** Everything the rebase executor may request, in the order it does,
    [onto] being the commit the base branch resolves to. *)
Definition rebaseScript (dir url : option string) (pr : PullRequest)
    (onto : string) : list Call :=
  [cloned url dir pr; fetched dir pr; deepened dir pr; GitHead dir;
   GitSha dir (base_ref (base pr)); GitRebase dir onto; GitHead dir;
   GitPush dir true (head_ref (head pr)); SetTimeout 30000].

(** The pull requests the per-PR handler lets through to [update]. *)
Definition eligible (context : Context) (pr : PullRequest) : bool :=
  String.eqb (pr_state pr) "open"
  && negb (Orchestrator.skipPullRequest context pr).

(** A platform on which the token may read but not write. *)
Definition readOnlyOctokit : Octokit :=
  {| pulls_listReviews := fun _ _ _ _ => inr [reviewAt 1 "COMMENTED" 200];
     issues_listEvents := fun _ _ _ _ => inr [labeledAt "automerge" 100];
     pulls_getCommentsForReview := fun _ _ _ _ _ => inr (Some []);
     issues_update := fun _ _ _ _ _ => inl "403";
     issues_createComment := fun _ _ _ _ _ => inl "403";
     pulls_get := fun _ _ _ _ => inr "behind";
     repos_merge := fun _ _ _ _ _ => inl "409" |}.

(** A pull request approved without comments after it was labelled. *)
Definition approvedOctokit (mergeable_state : string)
    (merging : Answer MergeResponse) : Octokit :=
  snapshotOctokit twoReviews relabeledTimeline noComments mergeable_state merging.

(** A review whose submission date parsed. *)
Definition dated (r : Review) : bool :=
  match submitted_at r with
  | Finite _ => true
  | NaN => false
  end.

(** A review submitted at or after the reference date [T]. *)
Definition sinceLabel (T : TimeValue) (r : Review) : bool :=
  negb (date_lt (submitted_at r) (Some T)).

(** A platform on which labels may be edited but no comment posted. *)
Definition mutedOctokit : Octokit :=
  {| pulls_listReviews := fun _ _ _ _ => inr [reviewAt 1 "COMMENTED" 200];
     issues_listEvents := fun _ _ _ _ => inr [labeledAt "automerge" 100];
     pulls_getCommentsForReview := fun _ _ _ _ _ => inr (Some []);
     issues_update := fun _ _ _ _ _ => inr tt;
     issues_createComment := fun _ _ _ _ _ => inl "403";
     pulls_get := fun _ _ _ _ => inr "behind";
     repos_merge := fun _ _ _ _ _ => inl "409" |}.

(** A platform that is down. *)
Definition downOctokit : Octokit :=
  {| pulls_listReviews := fun _ _ _ _ => inl "503";
     issues_listEvents := fun _ _ _ _ => inl "503";
     pulls_getCommentsForReview := fun _ _ _ _ _ => inl "503";
     issues_update := fun _ _ _ _ _ => inl "503";
     issues_createComment := fun _ _ _ _ _ => inl "503";
     pulls_get := fun _ _ _ _ => inl "503";
     repos_merge := fun _ _ _ _ _ => inl "503" |}.

(** An accepted merge request answered without a commit. *)
Definition bodilessMerge : Answer MergeResponse :=
  inr {| status := 202; data := None |}.

(** A working copy like [sampleGit] whose remote refuses the push. *)
Definition protectedGit (before after onto : string) : Git :=
  {| git_clone := fun _ _ _ _ => inr tt;
     git_fetch := fun _ _ _ => inr tt;
     git_fetchUntilMergeBase := fun _ _ _ _ => inr tt;
     git_head := fun h _ => inr (if rebased h then after else before);
     git_sha := fun _ _ _ => inr onto;
     git_rebase := fun _ _ _ => inr tt;
     git_push := fun _ _ _ _ => inl "protected branch" |}.

(** PR #7 of the end-to-end scenario: an action label and a blocking one. *)
Definition pr7 : PullRequest :=
  samplePR 7 "open" false "acme/widgets" ["autorebase"; "blocking-label"].

Definition sampleDir : option string := Some "/tmp/automerge".

Definition sampleUrl : option string := Some "https://example.invalid/w.git".

(** * Properties *)

(** ** Running computations *)

Lemma bind_return {A B} (m : M A) (k : A -> M B) h a h' :
  m h = (Return a, h') -> bind m k h = k a h'.
Proof. intros E. unfold bind. now rewrite E. Qed.

Lemma bind_throw {A B} (m : M A) (k : A -> M B) h e h' :
  m h = (Throw e, h') -> bind m k h = (Throw e, h').
Proof. intros E. unfold bind. now rewrite E. Qed.

Lemma await_answered {A} c (answer : History -> Answer A) h a :
  answer h = inr a -> await c answer h = (Return a, h ++ [c]).
Proof. intros E. unfold await. now rewrite E. Qed.

Lemma truthy_js_or a b : truthy (js_or a b) = truthy a || truthy b.
Proof. unfold js_or. destruct (truthy a) eqn:E; [now rewrite E | reflexivity]. Qed.

Lemma truthy_commentsLength comments :
  truthy (Update.commentsLength comments)
  = match comments with Some (_ :: _) => true | _ => false end.
Proof. destruct comments as [[|c cs]|]; reflexivity. Qed.

Lemma includes_In xs x : includes xs x = true <-> In x xs.
Proof.
  unfold includes. rewrite existsb_exists. split.
  - intros [y [Hy E]]. apply String.eqb_eq in E. now subst.
  - intros H. exists x. split; [assumption | apply String.eqb_refl].
Qed.

(** ** Labels *)

(** The label loop of [dropAutoMergeLabel] is a filter: what is pushed
    is, in order, the name of every label outside the action set. *)
Lemma keptLabels_filter actions ls acc :
  Update.keptLabels actions ls acc
  = acc ++ map label_name
             (filter (fun l => negb (includes actions (label_name l))) ls).
Proof.
  revert acc. induction ls as [|l ls IH]; intros acc; simpl.
  - now rewrite app_nil_r.
  - destruct (includes actions (label_name l)); simpl.
    + apply IH.
    + rewrite IH, <- app_assoc. reflexivity.
Qed.

Lemma resolveLabels_run config actions ls action skip h :
  Update.resolveLabels config actions ls action skip h
  = resolution action
      (filter (includes actions) (map label_name ls))
      (skip || existsb (fun n => String.eqb n (Update.skipLabel config))
                       (map label_name ls))
      h.
Proof.
  revert action skip. induction ls as [|l ls IH]; intros action skip.
  - simpl. rewrite orb_false_r. now destruct action.
  - cbn [Update.resolveLabels map filter existsb].
    destruct (includes actions (label_name l)) eqn:Hin.
    + destruct action as [a|].
      * reflexivity.
      * unfold bind at 1. cbn [ret]. rewrite IH.
        destruct (String.eqb (label_name l) (Update.skipLabel config));
          cbn [orb]; rewrite ?orb_true_r, ?orb_false_r;
          destruct (filter (includes actions) (map label_name ls));
          reflexivity.
    + unfold bind at 1. cbn [ret]. rewrite IH.
      destruct (String.eqb (label_name l) (Update.skipLabel config));
        cbn [orb]; rewrite ?orb_true_r, ?orb_false_r; reflexivity.
Qed.

Section DecisionEngine.

Variable git : Git.
Variable context : Context.
Variables dir url : option string.
Variable pullRequest : PullRequest.


(** C9: a pull request whose head repository full name differs from its
    base repository full name is a benign skip, raised before the labels
    are read and with no request issued to the platform or to git. *)
Theorem update_skips_fork h :
  full_name (head_repo (head pullRequest))
  <> full_name (base_repo (base pullRequest)) ->
  Update.update git context dir url pullRequest h = (Throw NeutralExitError, h).
Proof.
  intros Hne. unfold Update.update.
  destruct (merged pullRequest); [reflexivity|].
  apply String.eqb_neq in Hne. now rewrite Hne.
Qed.

(** The first stage of [update] for a pull request that is neither merged
    nor a fork: the label loop, then the rest. *)
Lemma update_resolves h :
  merged pullRequest = false ->
  full_name (head_repo (head pullRequest))
  = full_name (base_repo (base pullRequest)) ->
  forall e,
    resolution None
      (filter (includes (actionSet (config context)))
              (map label_name (labels pullRequest)))
      (existsb (fun n => String.eqb n (Update.skipLabel (config context)))
               (map label_name (labels pullRequest))) h
    = (Throw e, h) ->
    Update.update git context dir url pullRequest h = (Throw e, h).
Proof.
  intros Hm Hr e He. unfold Update.update.
  rewrite Hm, Hr, String.eqb_refl. cbn [negb].
  apply bind_throw. rewrite resolveLabels_run. exact He.
Qed.

(** C4, amended: of a pull request that is neither merged nor a fork and
    carries more than one label of the action set, [update] raises the
    fatal error naming the first two of them; no request is issued, so
    neither label is acted on. *)
Theorem update_ambiguous_labels h a b rest :
  merged pullRequest = false ->
  full_name (head_repo (head pullRequest))
  = full_name (base_repo (base pullRequest)) ->
  filter (includes (actionSet (config context)))
         (map label_name (labels pullRequest))
  = a :: b :: rest ->
  Update.update git context dir url pullRequest h
  = (Throw (Error ("ambiguous labels: " ++ a ++ " + " ++ b)), h)
  /\ isNeutral (Error ("ambiguous labels: " ++ a ++ " + " ++ b)) = false.
Proof.
  intros Hm Hr Hf. split; [|reflexivity].
  apply update_resolves; try assumption.
  now rewrite Hf.
Qed.

End DecisionEngine.

Section PerPullRequest.

Variable git : Git.
Variable tmpdir : (string -> M string) -> M string.
Variable merge : Context -> PullRequest -> string -> M unit.

(** C10: a pull request whose state is not [open] is a benign skip of the
    per-PR handler, raised before the blocking and required labels are
    looked at and before [update] runs: nothing is requested. *)
Theorem handler_skips_not_open context pullRequest h :
  pr_state pullRequest <> "open" ->
  Orchestrator.updateAndMergePullRequest git tmpdir merge context pullRequest h
  = (Throw NeutralExitError, h).
Proof.
  intros Hs. unfold Orchestrator.updateAndMergePullRequest.
  apply String.eqb_neq in Hs. now rewrite Hs.
Qed.

End PerPullRequest.

(** ** Review validation *)

Lemma existsb_rev {A} (f : A -> bool) l : existsb f (rev l) = existsb f l.
Proof.
  induction l as [|x l IH]; [reflexivity|].
  cbn [rev existsb]. rewrite existsb_app, IH. cbn. rewrite orb_false_r.
  apply orb_comm.
Qed.

Lemma forallb_rev {A} (f : A -> bool) l : forallb f (rev l) = forallb f l.
Proof.
  induction l as [|x l IH]; [reflexivity|].
  cbn [rev forallb]. rewrite forallb_app, IH. cbn. rewrite andb_true_r.
  apply andb_comm.
Qed.

(** With an undefined reference date nothing compares as older: the walk
    reaches every review. *)
Lemma inspected_undefined rs : inspected None rs = rs.
Proof.
  induction rs as [|r rs IH]; [reflexivity|].
  cbn [inspected]. replace (date_lt (submitted_at r) None) with false.
  - now rewrite IH.
  - now destruct (submitted_at r).
Qed.

(** The walk goes through a run of reviews none of which is older than
    the reference date. *)
Lemma inspected_through T pre r post :
  Forall (fun x => date_lt (submitted_at x) T = false) pre ->
  date_lt (submitted_at r) T = false ->
  inspected T (pre ++ r :: post) = pre ++ r :: inspected T post.
Proof.
  intros Hpre Hr. induction Hpre as [|x pre Hx _ IH].
  - cbn [app inspected]. now rewrite Hr.
  - cbn [app inspected]. now rewrite Hx, IH.
Qed.

(** Whatever the walk reaches is listed and not older than the date. *)
Lemma inspected_quiet (f : Review -> bool) T rs :
  (forall x, In x rs -> date_lt (submitted_at x) T = false -> f x = false) ->
  existsb f (inspected T rs) = false.
Proof.
  induction rs as [|r rs IH]; intros H; [reflexivity|].
  cbn [inspected]. destruct (date_lt (submitted_at r) T) eqn:E; [reflexivity|].
  cbn [existsb]. rewrite (H r (or_introl eq_refl) E). cbn.
  apply IH. intros x Hx. apply H. now right.
Qed.

(** In a chronological list the reviews listed after [r] are not
    submitted before it. *)
Lemma chronological_after older r newer :
  chronological (older ++ r :: newer) ->
  Forall (fun x => date_lt (submitted_at x) (Some (submitted_at r)) = false) newer.
Proof.
  unfold chronological. induction older as [|o older IH]; cbn [app]; intros H.
  - now apply StronglySorted_inv in H as [_ H].
  - apply StronglySorted_inv in H as [H _]. now apply IH.
Qed.

(** Submitted after [T], hence not before it; and so is whatever is not
    submitted before such a review. *)
Lemma after_not_before T s :
  date_lt T (Some s) = true -> date_lt s (Some T) = false.
Proof.
  destruct T as [t|], s as [x|]; cbn; try discriminate.
  intros H. apply Z.ltb_lt in H. apply Z.ltb_ge. lia.
Qed.

Lemma not_before_later T s x :
  date_lt T (Some s) = true ->
  date_lt x (Some s) = false ->
  date_lt x (Some T) = false.
Proof.
  destruct T as [t|], s as [y|], x as [z|]; cbn; try discriminate; try reflexivity.
  intros H1 H2. apply Z.ltb_lt in H1. apply Z.ltb_ge in H2. apply Z.ltb_ge. lia.
Qed.

Section ReviewValidation.

Variable api : Octokit.
Variable pullRequest : PullRequest.
Variable actions : list string.
Variable reviews : list Review.
Variable events : list Event.
Variable comments : Z -> option (list ReviewComment).

Hypothesis platform : serves api pullRequest reviews events comments.

(** The event loop issues no request; without a [labeled] event of an
    action label the date stays undefined. *)
Lemma lastLabeled_absent evs h :
  forallb carriesLabel evs = true ->
  existsb (actionLabeled actions) evs = false ->
  Update.lastLabeled actions evs h = (Return None, h).
Proof.
  induction evs as [|e evs IH]; intros Hwf Hno; [reflexivity|].
  cbn [forallb existsb] in Hwf, Hno.
  apply andb_true_iff in Hwf as [Hc Hwf].
  apply orb_false_iff in Hno as [He Hno].
  unfold carriesLabel in Hc. unfold actionLabeled in He.
  cbn [Update.lastLabeled].
  destruct (String.eqb (event e) "labeled"); cbn [negb orb andb] in Hc, He.
  - destruct (label e) as [l|]; [|discriminate].
    rewrite He. now apply IH.
  - now apply IH.
Qed.

(** The loop stops at the first [labeled] event of an action label. *)
Lemma lastLabeled_found newer e older h :
  forallb carriesLabel newer = true ->
  existsb (actionLabeled actions) newer = false ->
  actionLabeled actions e = true ->
  Update.lastLabeled actions (newer ++ e :: older) h
  = (Return (Some (created_at e)), h).
Proof.
  intros Hwf Hno He.
  induction newer as [|e' newer IH].
  - unfold actionLabeled in He. cbn [app Update.lastLabeled].
    apply andb_true_iff in He as [He1 He2]. rewrite He1.
    destruct (label e) as [l|]; [|discriminate]. now rewrite He2.
  - cbn [forallb existsb] in Hwf, Hno.
    apply andb_true_iff in Hwf as [Hc Hwf].
    apply orb_false_iff in Hno as [He' Hno].
    unfold carriesLabel in Hc. unfold actionLabeled in He'.
    cbn [app Update.lastLabeled].
    destruct (String.eqb (event e') "labeled"); cbn [negb orb andb] in Hc, He'.
    + destruct (label e') as [l|]; [|discriminate].
      rewrite He'. now apply IH.
    + now apply IH.
Qed.

(** The review loop returns: its flag is raised exactly when it was
    raised before or one of the reviews it reaches is destabilizing. *)
Lemma reviewLoop_run lastLabeledDate rs needs h :
  exists v h',
    Update.reviewLoop api pullRequest lastLabeledDate rs needs h = (Return v, h')
    /\ truthy v
       = truthy needs || existsb (destabilizing comments) (inspected lastLabeledDate rs).
Proof.
  revert needs h. induction rs as [|r rs IH]; intros needs h.
  - exists needs, h. cbn. now rewrite orb_false_r.
  - cbn [Update.reviewLoop inspected].
    destruct (date_lt (submitted_at r) lastLabeledDate).
    + exists needs, h. cbn. now rewrite orb_false_r.
    + cbn [existsb]. unfold destabilizing at 1.
      destruct (String.eqb (review_state r) "CHANGES_REQUESTED"
                || String.eqb (review_state r) "APPROVED").
      * erewrite bind_return
          by (apply await_answered; apply (serves_comments _ _ _ _ _ platform)).
        destruct (IH (js_or needs (Update.commentsLength (comments (review_id r))))
                     (h ++ [PullsGetCommentsForReview (Update.pr_owner pullRequest)
                              (Update.pr_repo pullRequest) (number pullRequest)
                              (review_id r)]))
          as (v & h' & Hrun & Hv).
        exists v, h'. split; [exact Hrun|].
        rewrite Hv, truthy_js_or, truthy_commentsLength, orb_assoc. reflexivity.
      * destruct (IH (JsBool true) h) as (v & h' & Hrun & Hv).
        exists v, h'. split; [exact Hrun|].
        rewrite Hv. cbn. now rewrite orb_true_r.
Qed.

(** [isPrReviewed] returns, and is stable exactly when no review reached
    by the newest-first walk is destabilizing. *)
Lemma isPrReviewed_run lastLabeledDate h :
  (forall h', Update.lastLabeled actions (rev events) h'
              = (Return lastLabeledDate, h')) ->
  fst (Update.isPrReviewed (Some api) pullRequest actions h)
  = Return (negb (existsb (destabilizing comments)
                    (inspected lastLabeledDate (rev reviews)))).
Proof.
  intros Hdate. unfold Update.isPrReviewed, on_octokit.
  erewrite bind_return
    by (apply await_answered; apply (serves_reviews _ _ _ _ _ platform)).
  erewrite bind_return
    by (apply await_answered; apply (serves_events _ _ _ _ _ platform)).
  erewrite bind_return by apply Hdate.
  match goal with
  | |- context [bind (Update.reviewLoop ?a ?p ?d ?rs ?n) _ ?h0] =>
      destruct (reviewLoop_run d rs n h0) as (v & h' & Hrun & Hv)
  end.
  erewrite bind_return by exact Hrun.
  cbn. unfold js_not. now rewrite Hv.
Qed.

(** C1, amended: when the timeline has no [labeled] event of an action
    label, the reference date is undefined and no review counts as older
    than it: every review is inspected, and [isPrReviewed] returns true
    exactly when none of them is destabilizing (in particular when there
    is no review at all). *)
Theorem isPrReviewed_without_label_event h :
  forallb carriesLabel events = true ->
  existsb (actionLabeled actions) events = false ->
  fst (Update.isPrReviewed (Some api) pullRequest actions h)
  = Return (negb (existsb (destabilizing comments) reviews)).
Proof.
  intros Hwf Hno.
  rewrite (isPrReviewed_run None).
  - now rewrite inspected_undefined, existsb_rev.
  - intros h'. apply lastLabeled_absent; now rewrite ?forallb_rev, ?existsb_rev.
Qed.

(** The reference date is the date of the last listed [labeled] event of
    an action label. *)
Lemma lastLabeled_most_recent older e newer h :
  events = older ++ e :: newer ->
  forallb carriesLabel events = true ->
  existsb (actionLabeled actions) newer = false ->
  actionLabeled actions e = true ->
  Update.lastLabeled actions (rev events) h = (Return (Some (created_at e)), h).
Proof.
  intros -> Hwf Hno He.
  rewrite rev_app_distr. cbn [rev]. rewrite <- app_assoc. cbn [app].
  apply lastLabeled_found; rewrite ?forallb_rev, ?existsb_rev; try assumption.
  rewrite forallb_app in Hwf. apply andb_true_iff in Hwf as [_ Hwf].
  cbn [forallb] in Hwf. now apply andb_true_iff in Hwf as [_ Hwf].
Qed.

(** C5: let the most recent [labeled] event of an action label be at T,
    and [r] be an [APPROVED] review submitted after T.  If [r] carries at
    least one attached comment (the reviews being listed oldest first),
    [isPrReviewed] returns false; if it carries none and no other review
    submitted at or after T is destabilizing, it returns true. *)
Theorem isPrReviewed_approved_after_label older e newer r h :
  events = older ++ e :: newer ->
  forallb carriesLabel events = true ->
  existsb (actionLabeled actions) newer = false ->
  actionLabeled actions e = true ->
  In r reviews ->
  review_state r = "APPROVED" ->
  date_lt (created_at e) (Some (submitted_at r)) = true ->
  (chronological reviews ->
   (exists c cs, comments (review_id r) = Some (c :: cs)) ->
   fst (Update.isPrReviewed (Some api) pullRequest actions h) = Return false)
  /\
  (comments (review_id r) = Some [] ->
   (forall r', In r' reviews -> r' <> r ->
               date_lt (submitted_at r') (Some (created_at e)) = false ->
               destabilizing comments r' = false) ->
   fst (Update.isPrReviewed (Some api) pullRequest actions h) = Return true).
Proof.
  intros Hev Hwf Hno He Hin Hst Hafter.
  assert (Hdate : forall h', Update.lastLabeled actions (rev events) h'
                             = (Return (Some (created_at e)), h'))
    by (intros h'; now apply (lastLabeled_most_recent older e newer)).
  rewrite (isPrReviewed_run _ h Hdate).
  split.
  - intros Hchron (c & cs & Hc).
    destruct (in_split _ _ Hin) as (l1 & l2 & Hsplit).
    rewrite Hsplit in Hchron |- *.
    apply chronological_after in Hchron.
    rewrite rev_app_distr. cbn [rev]. rewrite <- app_assoc. cbn [app].
    rewrite inspected_through.
    + rewrite existsb_app. cbn [existsb]. unfold destabilizing at 2.
      rewrite Hst, Hc. cbn. now rewrite orb_true_r.
    + apply Forall_rev. eapply Forall_impl; [|exact Hchron].
      intros x Hx. cbn beta in Hx. now apply (not_before_later _ (submitted_at r)).
    + now apply after_not_before.
  - intros Hc Hothers.
    rewrite inspected_quiet; [reflexivity|].
    intros x Hx Hnb. apply in_rev in Hx.
    assert (Hr : destabilizing comments r = false)
      by (unfold destabilizing; rewrite Hst, Hc; reflexivity).
    destruct (String.eqb (review_state x) (review_state r)) eqn:Es.
    2:{ apply Hothers; try assumption. intros ->. now rewrite String.eqb_refl in Es. }
    destruct (Z.eqb (review_id x) (review_id r)) eqn:Ei.
    2:{ apply Hothers; try assumption. intros ->. now rewrite Z.eqb_refl in Ei. }
    apply String.eqb_eq in Es. apply Z.eqb_eq in Ei.
    unfold destabilizing in Hr |- *. now rewrite Es, Ei.
Qed.

End ReviewValidation.

(** A request for changes made after the label was applied, with no
    attached comment, leaves the pull request stable. *)
Lemma isPrReviewed_changes_requested_counterexample :
  ~ (sinceLabel (Finite 100) (reviewAt 1 "CHANGES_REQUESTED" 200) = true ->
     fst (Update.isPrReviewed
            (Some (snapshotOctokit [reviewAt 1 "CHANGES_REQUESTED" 200]
                     [labeledAt "automerge" 100] noComments "clean"
                     (inl "unused")))
            (samplePR 1 "open" false "acme/widgets" ["automerge"])
            (actionSet sampleConfig) [])
     = Return false).
Proof. intros H. specialize (H eq_refl). discriminate H. Qed.

(** What is not before a dated review submitted since [T] is not before
    [T] either. *)
Lemma since_not_before T r x :
  dated r = true ->
  sinceLabel T r = true ->
  date_lt x (Some (submitted_at r)) = false ->
  date_lt x (Some T) = false.
Proof.
  unfold dated, sinceLabel. intros Hd Hs Hx.
  apply negb_true_iff in Hs.
  destruct (submitted_at r) as [s|]; [|discriminate].
  destruct x as [z|], T as [t|]; cbn in *; try reflexivity.
  apply Z.ltb_ge in Hs, Hx. apply Z.ltb_ge. lia.
Qed.

Section ChangesRequested.

Variable api : Octokit.
Variable pullRequest : PullRequest.
Variable actions : list string.
Variable reviews : list Review.
Variable events : list Event.
Variable comments : Z -> option (list ReviewComment).

Hypothesis platform : serves api pullRequest reviews events comments.

(** C2, amended: let the most recent [labeled] event of an action label
    be at T, and [r] be a [CHANGES_REQUESTED] review submitted at or
    after T.  If [r] carries at least one attached comment (the reviews
    being listed oldest first), [isPrReviewed] returns false; if it
    carries none, it does not count: with no other destabilizing review
    submitted at or after T, [isPrReviewed] returns true. *)
Theorem isPrReviewed_changes_requested_after_label older e newer r h :
  events = older ++ e :: newer ->
  forallb carriesLabel events = true ->
  existsb (actionLabeled actions) newer = false ->
  actionLabeled actions e = true ->
  In r reviews ->
  review_state r = "CHANGES_REQUESTED" ->
  dated r = true ->
  sinceLabel (created_at e) r = true ->
  (chronological reviews ->
   (exists c cs, comments (review_id r) = Some (c :: cs)) ->
   fst (Update.isPrReviewed (Some api) pullRequest actions h) = Return false)
  /\
  (comments (review_id r) = Some [] ->
   (forall r', In r' reviews -> r' <> r ->
               sinceLabel (created_at e) r' = true ->
               destabilizing comments r' = false) ->
   fst (Update.isPrReviewed (Some api) pullRequest actions h) = Return true).
Proof.
  intros Hev Hwf Hno He Hin Hst Hdated Hsince.
  rewrite (isPrReviewed_run api pullRequest actions reviews events comments
             platform (Some (created_at e)))
    by (intros h';
        now apply (lastLabeled_most_recent _ _ _ _ _ _ platform older e newer)).
  split.
  - intros Hchron (c & cs & Hc).
    destruct (in_split _ _ Hin) as (l1 & l2 & Hsplit).
    rewrite Hsplit in Hchron |- *.
    apply chronological_after in Hchron.
    rewrite rev_app_distr. cbn [rev]. rewrite <- app_assoc. cbn [app].
    rewrite inspected_through.
    + rewrite existsb_app. cbn [existsb]. unfold destabilizing at 2.
      rewrite Hst, Hc. cbn. now rewrite orb_true_r.
    + apply Forall_rev. eapply Forall_impl; [|exact Hchron].
      intros x Hx. cbn beta in Hx. now apply (since_not_before _ r).
    + unfold sinceLabel in Hsince. now apply negb_true_iff in Hsince.
  - intros Hc Hothers.
    rewrite inspected_quiet; [reflexivity|].
    intros x Hx Hnb. apply in_rev in Hx.
    assert (Hr : destabilizing comments r = false)
      by (unfold destabilizing; rewrite Hst, Hc; reflexivity).
    assert (Hsx : sinceLabel (created_at e) x = true)
      by (unfold sinceLabel; now rewrite Hnb).
    destruct (String.eqb (review_state x) (review_state r)) eqn:Es.
    2:{ apply Hothers; try assumption. intros ->. now rewrite String.eqb_refl in Es. }
    destruct (Z.eqb (review_id x) (review_id r)) eqn:Ei.
    2:{ apply Hothers; try assumption. intros ->. now rewrite Z.eqb_refl in Ei. }
    apply String.eqb_eq in Es. apply Z.eqb_eq in Ei.
    unfold destabilizing in Hr |- *. now rewrite Es, Ei.
Qed.

End ChangesRequested.

(** ** Executors *)

Section MergeExecutor.

Variable api : Octokit.
Variable pullRequest : PullRequest.
Variable h : History.

(** C6: with the freshly fetched mergeable state [state], the merge
    executor returns the recorded head SHA when [state] is [clean] or
    [has_hooks], and when it is [behind] and the merge request answers
    204; it returns the SHA the platform reports, after the settle delay,
    when [behind] and another status comes with a commit; for every
    other state it is a benign skip and no merge request is issued. *)
Theorem merge_cases state :
  pulls_get api h (Update.pr_owner pullRequest) (Update.pr_repo pullRequest)
    (number pullRequest) = inr state ->
  (state = "clean" \/ state = "has_hooks" ->
   Update.merge (Some api) pullRequest h
   = (Return (Update.recordedHead pullRequest), h ++ [askState pullRequest]))
  /\
  (state = "behind" ->
   forall response,
     repos_merge api (h ++ [askState pullRequest])
       (Update.pr_owner pullRequest) (Update.pr_repo pullRequest)
       (head_ref (head pullRequest)) (base_ref (base pullRequest))
     = inr response ->
     (status response = 204 ->
      Update.merge (Some api) pullRequest h
      = (Return (Update.recordedHead pullRequest),
         h ++ [askState pullRequest; askMerge pullRequest]))
     /\
     (status response <> 204 ->
      forall d, data response = Some d ->
      Update.merge (Some api) pullRequest h
      = (Return (sha d),
         h ++ [askState pullRequest; askMerge pullRequest; SetTimeout 30000])))
  /\
  (state <> "behind" -> state <> "clean" -> state <> "has_hooks" ->
   Update.merge (Some api) pullRequest h
   = (Throw NeutralExitError, h ++ [askState pullRequest])).
Proof.
  intros Hstate.
  assert (Hget : Update.pullRequestState (Some api) pullRequest h
                 = (Return state, h ++ [askState pullRequest]))
    by (apply await_answered; exact Hstate).
  unfold Update.merge. rewrite (bind_return _ _ _ _ _ Hget).
  split; [|split].
  - intros [-> | ->]; reflexivity.
  - intros -> response Hmerge.
    cbn [String.eqb Ascii.eqb Bool.eqb andb].
    unfold on_octokit.
    erewrite bind_return by (apply await_answered; exact Hmerge).
    rewrite <- app_assoc. cbn [app]. fold (askMerge pullRequest).
    split.
    + intros H204. apply Z.eqb_eq in H204. now rewrite H204.
    + intros Hne d Hd. apply Z.eqb_neq in Hne. rewrite Hne, Hd.
      unfold bind, sleep, await, ret. now rewrite <- app_assoc.
  - intros Hb Hc Hh.
    apply String.eqb_neq in Hb, Hc, Hh. now rewrite Hb, Hc, Hh.
Qed.

End MergeExecutor.

Section RebaseExecutor.

Variable git : Git.
Variables dir url : option string.
Variable pullRequest : PullRequest.
Variable h : History.

Local Notation "'clone'" := (cloned url dir pullRequest).
Local Notation "'fetch'" := (fetched dir pullRequest).
Local Notation "'deepen'" := (deepened dir pullRequest).

(** C7: once the clone and the fetches went through, a local HEAD that
    differs from the head SHA recorded in the snapshot is a benign skip;
    the requests issued are the clone, the two fetches and the read of
    HEAD, so neither the rebase nor the push is attempted. *)
Theorem rebase_skips_moved_head localHead :
  git_clone git h url dir (head_ref (head pullRequest)) = inr tt ->
  git_fetch git (h ++ [clone]) dir (base_ref (base pullRequest)) = inr tt ->
  git_fetchUntilMergeBase git (h ++ [clone; fetch]) dir
    (base_ref (base pullRequest)) Update.FETCH_TIMEOUT = inr tt ->
  git_head git (h ++ [clone; fetch; deepen]) dir = inr localHead ->
  localHead <> Update.recordedHead pullRequest ->
  Update.rebase git dir url pullRequest h
  = (Throw NeutralExitError, h ++ [clone; fetch; deepen; GitHead dir]).
Proof.
  intros Hclone Hfetch Hdeep Hhead Hne.
  unfold Update.rebase.
  erewrite bind_return by (apply await_answered; exact Hclone).
  erewrite bind_return by (apply await_answered; exact Hfetch).
  rewrite <- app_assoc. cbn [app].
  erewrite bind_return by (apply await_answered; exact Hdeep).
  rewrite <- app_assoc. cbn [app].
  erewrite bind_return by (apply await_answered; exact Hhead).
  rewrite <- app_assoc. cbn [app].
  apply String.eqb_neq in Hne. now rewrite Hne.
Qed.

End RebaseExecutor.

(** ** The validating stage of the decision engine *)

(** The remediation: the labels are replaced by those outside the action
    set, then the notice is posted; two requests, in this order. *)
Lemma dropAutoMergeLabel_run api pullRequest actions h :
  issues_update api h (Update.pr_owner pullRequest) (Update.pr_repo pullRequest)
    (number pullRequest) (nonActionLabels actions pullRequest) = inr tt ->
  issues_createComment api
    (h ++ [askLabels pullRequest (nonActionLabels actions pullRequest)])
    (Update.pr_owner pullRequest) (Update.pr_repo pullRequest)
    (number pullRequest) Update.AUTOMERGE_LABEL_DROPPED = inr tt ->
  Update.dropAutoMergeLabel (Some api) pullRequest actions h
  = (Return tt,
     h ++ [askLabels pullRequest (nonActionLabels actions pullRequest);
           askComment pullRequest Update.AUTOMERGE_LABEL_DROPPED]).
Proof.
  intros Hupdate Hcomment.
  unfold Update.dropAutoMergeLabel, on_octokit.
  rewrite keptLabels_filter. cbn [app]. fold (nonActionLabels actions pullRequest).
  erewrite bind_return by (apply await_answered; exact Hupdate).
  erewrite bind_return by (apply await_answered; exact Hcomment).
  unfold ret, askComment. now rewrite <- app_assoc.
Qed.

Section Validating.

Variable git : Git.
Variable context : Context.
Variable api : Octokit.
Variables dir url : option string.
Variable pullRequest : PullRequest.
Variables h h1 : History.
Variable action : string.

Hypothesis client : octokit context = Some api.
Hypothesis unmerged : merged pullRequest = false.
Hypothesis sameRepo :
  full_name (head_repo (head pullRequest))
  = full_name (base_repo (base pullRequest)).
Hypothesis oneAction :
  filter (includes (actionSet (config context)))
         (map label_name (labels pullRequest))
  = [action].
Hypothesis validated :
  existsb (fun n => String.eqb n (Update.skipLabel (config context)))
          (map label_name (labels pullRequest))
  = false.

Ltac enter_update :=
  unfold Update.update;
  rewrite unmerged, sameRepo, String.eqb_refl; cbn [negb];
  erewrite bind_return
    by (rewrite resolveLabels_run; fold (actionSet (config context));
        rewrite oneAction, validated; reflexivity);
  cbn [negb orb]; rewrite client;
  fold (actionSet (config context)).

(** C8: when the review of a pull request with one action label and no
    skip-validation label is found unstable, [update] replaces the labels
    of the pull request by its labels outside the action set, in their
    order, posts the notice once, and raises the benign skip; these are
    the only two requests after the validation, so no label is added
    back and neither executor runs. *)
Theorem update_unstable_review :
  Update.isPrReviewed (Some api) pullRequest (actionSet (config context)) h
  = (Return false, h1) ->
  issues_update api h1 (Update.pr_owner pullRequest) (Update.pr_repo pullRequest)
    (number pullRequest)
    (nonActionLabels (actionSet (config context)) pullRequest) = inr tt ->
  issues_createComment api
    (h1 ++ [askLabels pullRequest
              (nonActionLabels (actionSet (config context)) pullRequest)])
    (Update.pr_owner pullRequest) (Update.pr_repo pullRequest)
    (number pullRequest) Update.AUTOMERGE_LABEL_DROPPED = inr tt ->
  Update.update git context dir url pullRequest h
  = (Throw NeutralExitError,
     h1 ++ [askLabels pullRequest
              (nonActionLabels (actionSet (config context)) pullRequest);
            askComment pullRequest Update.AUTOMERGE_LABEL_DROPPED]).
Proof.
  intros Hreview Hupdate Hcomment.
  enter_update.
  apply bind_throw.
  erewrite bind_return by exact Hreview. cbn [negb].
  apply bind_throw.
  erewrite bind_return by (apply dropAutoMergeLabel_run; eassumption).
  reflexivity.
Qed.

(** An unstable review never reaches an executor, also when the
    remediation fails: a rejected label update is raised as it is and
    the notice is not requested; once the label update is accepted the
    notice is requested, and its rejection is raised as it is. *)
Theorem update_unstable_never_executes :
  Update.isPrReviewed (Some api) pullRequest (actionSet (config context)) h
  = (Return false, h1) ->
  (forall reason,
     issues_update api h1 (Update.pr_owner pullRequest)
       (Update.pr_repo pullRequest) (number pullRequest)
       (nonActionLabels (actionSet (config context)) pullRequest)
     = inl reason ->
     Update.update git context dir url pullRequest h
     = (Throw (Rejected reason),
        h1 ++ [askLabels pullRequest
                 (nonActionLabels (actionSet (config context)) pullRequest)]))
  /\
  (issues_update api h1 (Update.pr_owner pullRequest)
     (Update.pr_repo pullRequest) (number pullRequest)
     (nonActionLabels (actionSet (config context)) pullRequest)
   = inr tt ->
   forall reason,
     issues_createComment api
       (h1 ++ [askLabels pullRequest
                 (nonActionLabels (actionSet (config context)) pullRequest)])
       (Update.pr_owner pullRequest) (Update.pr_repo pullRequest)
       (number pullRequest) Update.AUTOMERGE_LABEL_DROPPED
     = inl reason ->
     Update.update git context dir url pullRequest h
     = (Throw (Rejected reason),
        h1 ++ [askLabels pullRequest
                 (nonActionLabels (actionSet (config context)) pullRequest);
               askComment pullRequest Update.AUTOMERGE_LABEL_DROPPED])).
Proof.
  intros Hreview.
  assert (Hdrop : forall e h',
            Update.dropAutoMergeLabel (Some api) pullRequest
              (actionSet (config context)) h1 = (Throw e, h') ->
            Update.update git context dir url pullRequest h = (Throw e, h')).
  { intros e h' Hd. enter_update.
    apply bind_throw.
    erewrite bind_return by exact Hreview. cbn [negb].
    apply bind_throw. apply bind_throw. exact Hd. }
  split.
  - intros reason Hupdate. apply Hdrop.
    unfold Update.dropAutoMergeLabel, on_octokit.
    rewrite keptLabels_filter. cbn [app].
    fold (nonActionLabels (actionSet (config context)) pullRequest).
    apply bind_throw. unfold await. now rewrite Hupdate.
  - intros Hupdate reason Hcomment. apply Hdrop.
    unfold Update.dropAutoMergeLabel, on_octokit.
    rewrite keptLabels_filter. cbn [app].
    fold (nonActionLabels (actionSet (config context)) pullRequest).
    erewrite bind_return by (apply await_answered; exact Hupdate).
    apply bind_throw. unfold await, askLabels in Hcomment |- *. cbn beta.
    rewrite Hcomment, <- app_assoc. reflexivity.
Qed.

(** On the validating path the arguments are checked once the review is
    found stable: a missing directory or URL is a fatal error raised
    before either executor runs. *)
Lemma update_checks_arguments :
  Update.isPrReviewed (Some api) pullRequest (actionSet (config context)) h
  = (Return true, h1) ->
  falsy dir || falsy url = true ->
  Update.update git context dir url pullRequest h
  = (Throw (Error "invalid arguments!"), h1).
Proof.
  intros Hreview Hmissing.
  enter_update.
  apply bind_throw.
  erewrite bind_return by exact Hreview. cbn [negb].
  unfold bind at 1. cbn [ret orb]. now rewrite Hmissing.
Qed.

End Validating.

(** C3, on the code: with the skip-validation label on the pull request
    the arguments are not checked.  Called without client, directory and
    URL, [update] dispatches to the rebase executor, which clones,
    rebases and pushes with the null directory. *)
Theorem update_bypass_skips_argument_check :
  Update.update (sampleGit "1111111" "2222222" "3333333")
    (sampleContext None) None None
    (samplePR 7 "open" false "acme/widgets" ["autorebase"; "skip-validation"])
    []
  = (Return "2222222",
     [GitClone None None "feature"; GitFetch None "master";
      GitFetchUntilMergeBase None "master" 60000;
      GitHead None; GitSha None "master"; GitRebase None "3333333";
      GitHead None; GitPush None true "feature"; SetTimeout 30000]).
Proof. reflexivity. Qed.

(** ** The properties on sample pull requests *)

Lemma snapshot_serves reviews events comments state merging pr :
  serves (snapshotOctokit reviews events comments state merging) pr
    reviews events comments.
Proof. split; reflexivity. Qed.

(** No action label on the timeline, one comment-only review submitted
    before the other label was applied: the review is still inspected
    and the pull request found unstable. *)
Lemma isPrReviewed_without_label_event_counterexample :
  ~ (existsb (actionLabeled sampleActions) bugTimeline = false ->
     fst (Update.isPrReviewed (Some commentedOctokit) pr42 sampleActions [])
     = Return true).
Proof. intros H. specialize (H eq_refl). discriminate H. Qed.

Lemma isPrReviewed_without_label_event_witness :
  forallb carriesLabel bugTimeline = true
  /\ existsb (actionLabeled sampleActions) bugTimeline = false
  /\ fst (Update.isPrReviewed
            (Some (snapshotOctokit twoReviews bugTimeline noComments
                     "clean" upToDate))
            pr42 sampleActions [])
     = Return true.
Proof.
  split; [reflexivity | split; [reflexivity|]].
  exact (isPrReviewed_without_label_event _ pr42 sampleActions twoReviews
           bugTimeline noComments (snapshot_serves _ _ _ _ _ _) []
           eq_refl eq_refl).
Defined.

Lemma twoReviews_chronological : chronological twoReviews.
Proof. repeat constructor. Qed.

Lemma isPrReviewed_approved_after_label_witness :
  fst (Update.isPrReviewed
         (Some (snapshotOctokit twoReviews relabeledTimeline (oneCommentOn 2)
                  "clean" upToDate))
         pr42 sampleActions [])
  = Return false
  /\ fst (Update.isPrReviewed
            (Some (snapshotOctokit twoReviews relabeledTimeline noComments
                     "clean" upToDate))
            pr42 sampleActions [])
     = Return true.
Proof.
  split.
  - apply (proj1 (isPrReviewed_approved_after_label _ pr42 sampleActions
                    twoReviews relabeledTimeline (oneCommentOn 2)
                    (snapshot_serves _ _ _ _ _ _)
                    [labeledAt "automerge" 10] (labeledAt "automerge" 100)
                    [labeledAt "bug" 150] (reviewAt 2 "APPROVED" 200) []
                    eq_refl eq_refl eq_refl eq_refl
                    (or_intror (or_introl eq_refl)) eq_refl eq_refl)).
    + exact twoReviews_chronological.
    + exists {| comment_body := "nit" |}, []. reflexivity.
  - apply (proj2 (isPrReviewed_approved_after_label _ pr42 sampleActions
                    twoReviews relabeledTimeline noComments
                    (snapshot_serves _ _ _ _ _ _)
                    [labeledAt "automerge" 10] (labeledAt "automerge" 100)
                    [labeledAt "bug" 150] (reviewAt 2 "APPROVED" 200) []
                    eq_refl eq_refl eq_refl eq_refl
                    (or_intror (or_introl eq_refl)) eq_refl eq_refl)).
    + reflexivity.
    + intros r' [<- | [<- | []]] Hne Hnb.
      * discriminate Hnb.
      * now elim Hne.
Defined.

(** A merged pull request carrying both action labels is a benign skip,
    not the ambiguity error. *)
Lemma update_ambiguous_labels_counterexample :
  ~ (filter (includes sampleActions)
            (map label_name
               (labels (samplePR 7 "closed" true "acme/widgets"
                          ["automerge"; "autorebase"])))
     = ["automerge"; "autorebase"] ->
     exists e,
       fst (Update.update (sampleGit "1111111" "2222222" "3333333")
              (sampleContext (Some (stateOctokit "clean" upToDate)))
              (Some "/tmp/automerge") (Some "https://example.invalid/w.git")
              (samplePR 7 "closed" true "acme/widgets"
                 ["automerge"; "autorebase"]) [])
       = Throw e
       /\ isNeutral e = false).
Proof.
  intros H. destruct (H eq_refl) as (e & He & Hn).
  cbn in He. injection He as <-. discriminate Hn.
Qed.

Lemma update_ambiguous_labels_witness :
  Update.update (sampleGit "1111111" "2222222" "3333333")
    (sampleContext (Some (stateOctokit "clean" upToDate)))
    (Some "/tmp/automerge") (Some "https://example.invalid/w.git")
    (samplePR 7 "open" false "acme/widgets" ["automerge"; "bug"; "autorebase"])
    []
  = (Throw (Error "ambiguous labels: automerge + autorebase"), [])
  /\ isNeutral (Error "ambiguous labels: automerge + autorebase") = false.
Proof.
  exact (update_ambiguous_labels (sampleGit "1111111" "2222222" "3333333")
           (sampleContext (Some (stateOctokit "clean" upToDate)))
           (Some "/tmp/automerge") (Some "https://example.invalid/w.git")
           (samplePR 7 "open" false "acme/widgets"
              ["automerge"; "bug"; "autorebase"])
           [] "automerge" "autorebase" [] eq_refl eq_refl eq_refl).
Defined.

Lemma update_skips_fork_witness :
  Update.update (sampleGit "1111111" "2222222" "3333333")
    (sampleContext (Some (stateOctokit "behind" (mergedTo "abc123"))))
    (Some "/tmp/automerge") (Some "https://example.invalid/w.git")
    (samplePR 9 "open" false "mallory/widgets" ["automerge"]) []
  = (Throw NeutralExitError, []).
Proof.
  apply update_skips_fork. cbn. discriminate.
Defined.

Lemma handler_skips_not_open_witness :
  Orchestrator.updateAndMergePullRequest
    (sampleGit "1111111" "2222222" "3333333") sampleTmpdir sampleMerge
    (sampleContext (Some (stateOctokit "behind" (mergedTo "abc123"))))
    (samplePR 9 "closed" false "acme/widgets" ["automerge"]) []
  = (Throw NeutralExitError, []).
Proof.
  apply handler_skips_not_open. cbn. discriminate.
Defined.

Lemma merge_cases_witness :
  Update.merge (Some (stateOctokit "behind" (mergedTo "abc123"))) pr42 []
  = (Return "abc123",
     [PullsGet "acme" "widgets" 42;
      ReposMerge "acme" "widgets" "feature" "master";
      SetTimeout 30000])
  /\ Update.merge (Some (stateOctokit "behind" upToDate)) pr42 []
     = (Return "1111111",
        [PullsGet "acme" "widgets" 42;
         ReposMerge "acme" "widgets" "feature" "master"])
  /\ Update.merge (Some (stateOctokit "has_hooks" upToDate)) pr42 []
     = (Return "1111111", [PullsGet "acme" "widgets" 42])
  /\ Update.merge (Some (stateOctokit "dirty" upToDate)) pr42 []
     = (Throw NeutralExitError, [PullsGet "acme" "widgets" 42]).
Proof.
  split; [|split; [|split]].
  - refine (proj2 (proj1 (proj2
              (merge_cases (stateOctokit "behind" (mergedTo "abc123")) pr42 []
                 "behind" eq_refl)) eq_refl _ eq_refl) _ _ eq_refl).
    cbn. discriminate.
  - exact (proj1 (proj1 (proj2
             (merge_cases (stateOctokit "behind" upToDate) pr42 []
                "behind" eq_refl)) eq_refl _ eq_refl) eq_refl).
  - exact (proj1 (merge_cases (stateOctokit "has_hooks" upToDate) pr42 []
                    "has_hooks" eq_refl) (or_intror eq_refl)).
  - apply (proj2 (proj2 (merge_cases (stateOctokit "dirty" upToDate) pr42 []
                           "dirty" eq_refl))); discriminate.
Defined.

Lemma rebase_skips_moved_head_witness :
  "9999999" <> Update.recordedHead pr42
  /\ Update.rebase (sampleGit "9999999" "2222222" "3333333")
       (Some "/tmp/automerge") (Some "https://example.invalid/w.git") pr42 []
     = (Throw NeutralExitError,
        [GitClone (Some "https://example.invalid/w.git") (Some "/tmp/automerge")
           "feature";
         GitFetch (Some "/tmp/automerge") "master";
         GitFetchUntilMergeBase (Some "/tmp/automerge") "master" 60000;
         GitHead (Some "/tmp/automerge")]).
Proof.
  split; [cbn; discriminate|].
  apply (rebase_skips_moved_head (sampleGit "9999999" "2222222" "3333333")
           (Some "/tmp/automerge") (Some "https://example.invalid/w.git")
           pr42 [] "9999999"); try reflexivity.
  cbn. discriminate.
Defined.

Lemma update_unstable_review_witness :
  Update.update (sampleGit "1111111" "2222222" "3333333")
    (sampleContext (Some unstableOctokit))
    (Some "/tmp/automerge") (Some "https://example.invalid/w.git")
    (samplePR 42 "open" false "acme/widgets" ["wip"; "automerge"; "docs"]) []
  = (Throw NeutralExitError,
     [PullsListReviews "acme" "widgets" 42;
      IssuesListEvents "acme" "widgets" 42;
      IssuesUpdate "acme" "widgets" 42 ["wip"; "docs"];
      IssuesCreateComment "acme" "widgets" 42 Update.AUTOMERGE_LABEL_DROPPED]).
Proof.
  exact (update_unstable_review (sampleGit "1111111" "2222222" "3333333")
           (sampleContext (Some unstableOctokit)) unstableOctokit
           (Some "/tmp/automerge") (Some "https://example.invalid/w.git")
           (samplePR 42 "open" false "acme/widgets" ["wip"; "automerge"; "docs"])
           []
           [PullsListReviews "acme" "widgets" 42;
            IssuesListEvents "acme" "widgets" 42]
           "automerge" eq_refl eq_refl eq_refl eq_refl eq_refl
           eq_refl eq_refl eq_refl).
Defined.

(** * Further properties *)

(** ** The decision engine, stage by stage *)

(** The one label the loop resolved is one of the two configured ones. *)
Lemma resolved_action_configured config names action :
  filter (includes (actionSet config)) names = [action] ->
  String.eqb action (automerge config) = false ->
  String.eqb action (autorebase config) = true.
Proof.
  intros Hf Hne.
  assert (Hin : In action (filter (includes (actionSet config)) names))
    by (rewrite Hf; now left).
  apply filter_In in Hin as [_ Hin].
  unfold includes, actionSet in Hin. cbn [existsb] in Hin.
  rewrite Hne, orb_false_r in Hin. exact Hin.
Qed.

Section Stages.

Variable git : Git.
Variable context : Context.
Variables dir url : option string.
Variable pullRequest : PullRequest.
Variable h : History.

(** A merged pull request, and a pull request without any action label,
    are benign skips, raised before anything is requested. *)
Theorem update_skips_without_action :
  merged pullRequest = true
  \/ filter (includes (actionSet (config context)))
            (map label_name (labels pullRequest)) = [] ->
  Update.update git context dir url pullRequest h = (Throw NeutralExitError, h).
Proof.
  intros Hcase. unfold Update.update.
  destruct (merged pullRequest); [reflexivity|].
  destruct Hcase as [Hm | Hnone]; [discriminate|].
  destruct (String.eqb _ _); [|reflexivity]. cbn [negb].
  erewrite bind_return
    by (rewrite resolveLabels_run; fold (actionSet (config context));
        rewrite Hnone; reflexivity).
  reflexivity.
Qed.

Variable action : string.

Hypothesis unmerged : merged pullRequest = false.
Hypothesis sameRepo :
  full_name (head_repo (head pullRequest))
  = full_name (base_repo (base pullRequest)).
Hypothesis oneAction :
  filter (includes (actionSet (config context)))
         (map label_name (labels pullRequest))
  = [action].

Ltac resolve_labels skip :=
  unfold Update.update;
  rewrite unmerged, sameRepo, String.eqb_refl; cbn [negb];
  erewrite bind_return
    by (rewrite resolveLabels_run; fold (actionSet (config context));
        rewrite oneAction, skip; reflexivity);
  cbn [negb orb];
  fold (actionSet (config context)).

Ltac dispatch :=
  destruct (String.eqb action (automerge (config context))) eqn:Hmerge;
  [reflexivity|];
  now rewrite (resolved_action_configured _ _ _ oneAction Hmerge).

(** With the skip-validation label the validator is bypassed entirely:
    [update] is the executor of the resolved action, run at once, with
    the client, directory and URL exactly as they were passed. *)
Theorem update_bypass_dispatch :
  existsb (fun n => String.eqb n (Update.skipLabel (config context)))
          (map label_name (labels pullRequest)) = true ->
  Update.update git context dir url pullRequest h
  = if String.eqb action (automerge (config context))
    then Update.merge (octokit context) pullRequest h
    else Update.rebase git dir url pullRequest h.
Proof.
  intros Hskip. resolve_labels Hskip.
  unfold bind at 1. cbn [ret]. dispatch.
Qed.

Hypothesis validated :
  existsb (fun n => String.eqb n (Update.skipLabel (config context)))
          (map label_name (labels pullRequest))
  = false.

(** Without a client the validating path fails on its first request: a
    [TypeError], not the "invalid arguments" error, and nothing is
    requested. *)
Theorem update_null_client :
  octokit context = None ->
  Update.update git context dir url pullRequest h = (Throw TypeError, h).
Proof.
  intros Hnull. resolve_labels validated. rewrite Hnull. reflexivity.
Qed.

(** Once the review is found stable and directory and URL are present,
    [update] is the executor of the resolved action, run after the
    validation: the merge executor for the automerge label (also when
    both actions are configured with the same label), the rebase
    executor otherwise.  The "invalid action" error is never raised. *)
Theorem update_stable_dispatch api h1 :
  octokit context = Some api ->
  Update.isPrReviewed (Some api) pullRequest (actionSet (config context)) h
  = (Return true, h1) ->
  falsy dir = false ->
  falsy url = false ->
  Update.update git context dir url pullRequest h
  = if String.eqb action (automerge (config context))
    then Update.merge (Some api) pullRequest h1
    else Update.rebase git dir url pullRequest h1.
Proof.
  intros Hclient Hreview Hdir Hurl.
  resolve_labels validated. rewrite Hclient.
  erewrite (bind_return (A := unit)).
  2:{ erewrite bind_return by exact Hreview. cbn [negb].
      unfold bind at 1. cbn [ret orb]. rewrite Hdir, Hurl. reflexivity. }
  dispatch.
Qed.

End Stages.

(** ** The review validator *)

Lemma lastLabeled_history actions evs h :
  snd (Update.lastLabeled actions evs h) = h.
Proof.
  induction evs as [|e evs IH]; [reflexivity|].
  cbn [Update.lastLabeled].
  destruct (String.eqb (event e) "labeled"); [|exact IH].
  destruct (label e) as [l|]; [|reflexivity].
  destruct (includes actions (label_name l)); [reflexivity | exact IH].
Qed.

Lemma reviewLoop_reads api pr d rs needs h :
  exists suffix,
    snd (Update.reviewLoop api pr d rs needs h) = h ++ suffix
    /\ forallb reviewRead suffix = true.
Proof.
  revert needs h. induction rs as [|r rs IH]; intros needs h.
  - exists []. now rewrite app_nil_r.
  - cbn [Update.reviewLoop].
    destruct (date_lt (submitted_at r) d).
    + exists []. now rewrite app_nil_r.
    + destruct (String.eqb (review_state r) "CHANGES_REQUESTED"
                || String.eqb (review_state r) "APPROVED").
      * unfold bind, await.
        destruct (pulls_getCommentsForReview api h _ _ _ _) as [reason|cs].
        -- eexists [_]. split; reflexivity.
        -- match goal with
           | |- context [Update.reviewLoop _ _ _ _ ?n ?h0] =>
               destruct (IH n h0) as (suffix & Hs & Hr)
           end.
           eexists (_ :: suffix). rewrite Hs, <- app_assoc. split; [reflexivity|].
           exact Hr.
      * apply IH.
Qed.

(** [isPrReviewed] only reads: whatever the platform answers, and also
    when it throws, the requests it adds are listings of the reviews, of
    the timeline and of review comments. *)
Theorem isPrReviewed_read_only api pr actions h :
  exists suffix,
    snd (Update.isPrReviewed (Some api) pr actions h) = h ++ suffix
    /\ forallb reviewRead suffix = true.
Proof.
  unfold Update.isPrReviewed, on_octokit.
  unfold bind at 1. unfold await at 1.
  destruct (pulls_listReviews api h _ _ _) as [reason|reviews].
  { eexists [_]. split; reflexivity. }
  unfold bind at 1. unfold await at 1.
  destruct (issues_listEvents api _ _ _ _) as [reason|events].
  { eexists [_; _]. rewrite <- app_assoc. split; reflexivity. }
  unfold bind at 1.
  match goal with
  | |- context [Update.lastLabeled ?a ?evs ?h0] =>
      pose proof (lastLabeled_history a evs h0) as Hh;
      destruct (Update.lastLabeled a evs h0) as [[d|e] h'] eqn:E
  end; cbn [snd] in Hh; subst h'.
  2:{ eexists [_; _]. rewrite <- app_assoc. split; reflexivity. }
  unfold bind at 1.
  match goal with
  | |- context [Update.reviewLoop ?a ?p ?d0 ?rs ?n ?h0] =>
      destruct (reviewLoop_reads a p d0 rs n h0) as (suffix & Hs & Hr);
      destruct (Update.reviewLoop a p d0 rs n h0) as [[v|e] h'] eqn:E'
  end; cbn [snd] in Hs; subst h';
    eexists (_ :: _ :: suffix); rewrite <- !app_assoc; (split; [reflexivity | exact Hr]).
Qed.

(** A well-formed timeline always yields a reference date or none. *)
Lemma lastLabeled_total actions evs :
  forallb carriesLabel evs = true ->
  exists d, forall h, Update.lastLabeled actions evs h = (Return d, h).
Proof.
  induction evs as [|e evs IH]; intros Hwf.
  - exists None. reflexivity.
  - cbn [forallb] in Hwf. apply andb_true_iff in Hwf as [Hc Hwf].
    destruct (IH Hwf) as [d Hd].
    unfold carriesLabel in Hc. cbn [Update.lastLabeled].
    destruct (String.eqb (event e) "labeled"); cbn [negb orb] in Hc.
    + destruct (label e) as [l|]; [|discriminate].
      destruct (includes actions (label_name l)).
      * exists (Some (created_at e)). reflexivity.
      * exists d. exact Hd.
    + exists d. exact Hd.
Qed.

(** In a chronological list no earlier review is submitted after the
    last one. *)
Lemma chronological_snoc rs r :
  chronological (rs ++ [r]) ->
  chronological rs
  /\ Forall (fun a => date_lt (submitted_at r) (Some (submitted_at a)) = false) rs.
Proof.
  unfold chronological. induction rs as [|a rs IH]; cbn [app]; intros H.
  - split; constructor.
  - apply StronglySorted_inv in H as [Hs Ha].
    destruct (IH Hs) as [Hrs Hr].
    apply Forall_app in Ha as [Ha Har].
    split.
    + now constructor.
    + constructor; [|exact Hr]. now inversion Har.
Qed.

Section ReviewVerdicts.

Variable api : Octokit.
Variable pullRequest : PullRequest.
Variable actions : list string.
Variable reviews : list Review.
Variable events : list Event.
Variable comments : Z -> option (list ReviewComment).

Hypothesis platform : serves api pullRequest reviews events comments.

Ltac list_both :=
  unfold Update.isPrReviewed, on_octokit;
  erewrite bind_return
    by (apply await_answered; apply (serves_reviews _ _ _ _ _ platform));
  erewrite bind_return
    by (apply await_answered; apply (serves_events _ _ _ _ _ platform));
  rewrite <- app_assoc; cbn [app];
  fold (askReviews pullRequest); fold (askEvents pullRequest).

(** A pull request without reviews is stable, whatever its timeline;
    the two listings are the only requests. *)
Theorem isPrReviewed_no_reviews h :
  reviews = [] ->
  forallb carriesLabel events = true ->
  Update.isPrReviewed (Some api) pullRequest actions h
  = (Return true, h ++ [askReviews pullRequest; askEvents pullRequest]).
Proof.
  intros Hnone Hwf.
  destruct (lastLabeled_total actions (rev events)) as [d Hd];
    [now rewrite forallb_rev|].
  list_both. erewrite bind_return by apply Hd.
  rewrite Hnone. reflexivity.
Qed.

(** When the newest review was submitted before the action label was
    last applied, the walk stops at once: the pull request is stable
    whatever the reviews say, and no review comment is requested. *)
Theorem isPrReviewed_older_reviews_ignored older e newer rs r h :
  events = older ++ e :: newer ->
  forallb carriesLabel events = true ->
  existsb (actionLabeled actions) newer = false ->
  actionLabeled actions e = true ->
  reviews = rs ++ [r] ->
  date_lt (submitted_at r) (Some (created_at e)) = true ->
  Update.isPrReviewed (Some api) pullRequest actions h
  = (Return true, h ++ [askReviews pullRequest; askEvents pullRequest]).
Proof.
  intros Hev Hwf Hno He Hrs Hbefore.
  list_both.
  erewrite bind_return
    by (now apply (lastLabeled_most_recent _ _ _ _ _ _ platform older e newer)).
  rewrite Hrs, rev_app_distr. cbn [rev app Update.reviewLoop].
  rewrite Hbefore. reflexivity.
Qed.

(** Over a walk in which whatever follows a review older than [T] is
    older than [T] too, the reviews reached are those since [T]. *)
Lemma inspected_since (f : Review -> bool) T rs :
  forallb dated rs = true ->
  chronological rs ->
  existsb f (inspected (Some T) (rev rs))
  = existsb (fun r => sinceLabel T r && f r) rs.
Proof.
  induction rs as [|r rs IH] using rev_ind; intros Hd Hc; [reflexivity|].
  rewrite forallb_app in Hd. apply andb_true_iff in Hd as [Hd Hr].
  apply chronological_snoc in Hc as [Hc Hle].
  rewrite rev_app_distr, existsb_app. cbn [rev app inspected existsb].
  rewrite orb_false_r. unfold sinceLabel at 2.
  destruct (date_lt (submitted_at r) (Some T)) eqn:Hlt; cbn [negb andb existsb].
  - rewrite orb_false_r. symmetry. apply not_true_is_false. intros Hex.
    apply existsb_exists in Hex as (a & Ha & Hfa).
    apply andb_true_iff in Hfa as [Hsince _].
    rewrite Forall_forall in Hle. specialize (Hle a Ha).
    rewrite forallb_forall in Hd. specialize (Hd a Ha).
    unfold sinceLabel in Hsince. unfold dated in Hd.
    destruct (submitted_at a) as [x|]; [|discriminate].
    destruct (submitted_at r) as [y|], T as [t|]; cbn in *; try discriminate.
    apply Z.ltb_lt in Hlt. apply Z.ltb_ge in Hle.
    apply negb_true_iff, Z.ltb_ge in Hsince. lia.
  - rewrite IH by assumption. apply orb_comm.
Qed.

(** With the reviews listed oldest first and dated, [isPrReviewed] is
    stable exactly when no review submitted at or after the date the
    action label was last applied is destabilizing: a review submitted
    at that very date counts, an older one never does. *)
Theorem isPrReviewed_stable_iff older e newer h :
  events = older ++ e :: newer ->
  forallb carriesLabel events = true ->
  existsb (actionLabeled actions) newer = false ->
  actionLabeled actions e = true ->
  forallb dated reviews = true ->
  chronological reviews ->
  fst (Update.isPrReviewed (Some api) pullRequest actions h)
  = Return (negb (existsb (fun r => sinceLabel (created_at e) r
                                    && destabilizing comments r) reviews)).
Proof.
  intros Hev Hwf Hno He Hd Hc.
  rewrite (isPrReviewed_run api pullRequest actions reviews events comments
             platform (Some (created_at e))).
  - now rewrite inspected_since.
  - intros h'. now apply (lastLabeled_most_recent _ _ _ _ _ _ platform older e newer).
Qed.

End ReviewVerdicts.

(** ** The executors, beyond the expected paths *)

Section MergeFailures.

Variable api : Octokit.
Variable pullRequest : PullRequest.
Variable h : History.

(** A failure of the merge executor is fatal and is never followed by
    the settle delay: a rejected state request ends it at once; in state
    [behind] a rejected merge request (a conflict, say) is raised as it
    is, not turned into a benign skip; and an answer that is neither a
    204 nor carries a commit is a [TypeError]. *)
Theorem merge_failures :
  (forall reason,
     pulls_get api h (Update.pr_owner pullRequest) (Update.pr_repo pullRequest)
       (number pullRequest) = inl reason ->
     Update.merge (Some api) pullRequest h
     = (Throw (Rejected reason), h ++ [askState pullRequest]))
  /\ (pulls_get api h (Update.pr_owner pullRequest) (Update.pr_repo pullRequest)
        (number pullRequest) = inr "behind" ->
      (forall reason,
         repos_merge api (h ++ [askState pullRequest])
           (Update.pr_owner pullRequest) (Update.pr_repo pullRequest)
           (head_ref (head pullRequest)) (base_ref (base pullRequest))
         = inl reason ->
         Update.merge (Some api) pullRequest h
         = (Throw (Rejected reason),
            h ++ [askState pullRequest; askMerge pullRequest]))
      /\ (forall code,
            repos_merge api (h ++ [askState pullRequest])
              (Update.pr_owner pullRequest) (Update.pr_repo pullRequest)
              (head_ref (head pullRequest)) (base_ref (base pullRequest))
            = inr {| status := code; data := None |} ->
            code <> 204 ->
            Update.merge (Some api) pullRequest h
            = (Throw TypeError,
               h ++ [askState pullRequest; askMerge pullRequest]))).
Proof.
  split.
  - intros reason Hget. unfold Update.merge. apply bind_throw.
    unfold Update.pullRequestState, on_octokit, await. now rewrite Hget.
  - intros Hget.
    assert (Hstate : Update.pullRequestState (Some api) pullRequest h
                     = (Return "behind", h ++ [askState pullRequest]))
      by (apply await_answered; exact Hget).
    unfold Update.merge. rewrite (bind_return _ _ _ _ _ Hstate).
    cbn [String.eqb Ascii.eqb Bool.eqb andb]. unfold on_octokit.
    split.
    + intros reason Hmerge. apply bind_throw.
      unfold await. rewrite Hmerge, <- app_assoc. reflexivity.
    + intros code Hmerge Hcode.
      erewrite bind_return by (apply await_answered; exact Hmerge).
      cbn [status data]. apply Z.eqb_neq in Hcode. rewrite Hcode.
      unfold throw. now rewrite <- app_assoc.
Qed.

(** Whatever the platform answers, the merge executor requests the state
    first, then at most one merge, then at most one settle delay. *)
Theorem merge_follows_script :
  exists n,
    snd (Update.merge (Some api) pullRequest h)
    = h ++ firstn n [askState pullRequest; askMerge pullRequest;
                     SetTimeout 30000].
Proof.
  unfold Update.merge, Update.pullRequestState, on_octokit.
  unfold bind at 1. unfold await at 1.
  destruct (pulls_get api h _ _ _) as [reason|state].
  { now exists 1%nat. }
  destruct (String.eqb state "behind").
  - unfold bind at 1. unfold await at 1.
    destruct (repos_merge api _ _ _ _ _) as [reason|response].
    { exists 2%nat. now rewrite <- app_assoc. }
    destruct (status response =? 204).
    { exists 2%nat. cbn [ret snd]. now rewrite <- app_assoc. }
    destruct (data response) as [d|].
    + exists 3%nat. unfold bind, sleep, await, ret. cbn [snd].
      now rewrite <- !app_assoc.
    + exists 2%nat. cbn [throw snd]. now rewrite <- app_assoc.
  - exists 1%nat.
    now destruct (String.eqb state "clean" || String.eqb state "has_hooks").
Qed.

End MergeFailures.

Section RebaseRun.

Variable git : Git.
Variables dir url : option string.
Variable pullRequest : PullRequest.
Variable h : History.

Ltac next_request :=
  unfold bind at 1; unfold await at 1; rewrite <- ?app_assoc; cbn [app].

Ltac stops_after k :=
  exists k; cbn [snd firstn throw ret]; rewrite <- ?app_assoc; reflexivity.

(** Whatever git answers, the rebase executor follows its script and
    stops somewhere along it, the commit it rebases onto being the one
    git resolved the base branch to: nothing is pushed that was not
    rebased first, the push is forced and goes to the head branch, and
    the settle delay only follows a push.  When the base branch does not
    resolve, it stops at that request at the latest. *)
Theorem rebase_follows_script :
  (forall onto,
     git_sha git (h ++ firstn 4 (rebaseScript dir url pullRequest onto))
       dir (base_ref (base pullRequest)) = inr onto ->
     exists n,
       snd (Update.rebase git dir url pullRequest h)
       = h ++ firstn n (rebaseScript dir url pullRequest onto))
  /\
  (forall reason,
     git_sha git
       (h ++ [cloned url dir pullRequest; fetched dir pullRequest;
              deepened dir pullRequest; GitHead dir])
       dir (base_ref (base pullRequest)) = inl reason ->
     exists n,
       snd (Update.rebase git dir url pullRequest h)
       = h ++ firstn n [cloned url dir pullRequest; fetched dir pullRequest;
                        deepened dir pullRequest; GitHead dir;
                        GitSha dir (base_ref (base pullRequest))]).
Proof.
  split.
  - intros onto Hsha.
    unfold rebaseScript, cloned, fetched, deepened in Hsha |- *.
    cbn [firstn] in Hsha.
    unfold Update.rebase. next_request.
    destruct (git_clone git h _ _ _) as [reason|[]]; [stops_after 1%nat|].
    next_request.
    destruct (git_fetch git _ _ _) as [reason|[]]; [stops_after 2%nat|].
    next_request.
    destruct (git_fetchUntilMergeBase git _ _ _ _) as [reason|[]];
      [stops_after 3%nat|].
    next_request.
    destruct (git_head git _ _) as [reason|localHead]; [stops_after 4%nat|].
    destruct (negb (String.eqb localHead (Update.recordedHead pullRequest)));
      [stops_after 4%nat|].
    next_request. rewrite Hsha.
    next_request.
    destruct (git_rebase git _ _ _) as [reason|[]]; [stops_after 6%nat|].
    next_request.
    destruct (git_head git _ _) as [reason|newHead]; [stops_after 7%nat|].
    unfold bind at 1.
    destruct (String.eqb newHead localHead); [stops_after 7%nat|].
    next_request.
    destruct (git_push git _ _ _ _) as [reason|[]]; [stops_after 8%nat|].
    exists 9%nat. unfold sleep, await, ret. cbn [snd firstn].
    now rewrite <- ?app_assoc.
  - intros reason Hsha.
    unfold cloned, fetched, deepened in Hsha |- *.
    unfold Update.rebase. next_request.
    destruct (git_clone git h _ _ _) as [r|[]]; [stops_after 1%nat|].
    next_request.
    destruct (git_fetch git _ _ _) as [r|[]]; [stops_after 2%nat|].
    next_request.
    destruct (git_fetchUntilMergeBase git _ _ _ _) as [r|[]];
      [stops_after 3%nat|].
    next_request.
    destruct (git_head git _ _) as [r|localHead]; [stops_after 4%nat|].
    destruct (negb (String.eqb localHead (Update.recordedHead pullRequest)));
      [stops_after 4%nat|].
    next_request. rewrite Hsha. stops_after 5%nat.
Qed.

Variables onto newHead : string.

Hypothesis cloneDone :
  git_clone git h url dir (head_ref (head pullRequest)) = inr tt.
Hypothesis fetchDone :
  git_fetch git (h ++ firstn 1 (rebaseScript dir url pullRequest onto))
    dir (base_ref (base pullRequest)) = inr tt.
Hypothesis deepenDone :
  git_fetchUntilMergeBase git
    (h ++ firstn 2 (rebaseScript dir url pullRequest onto))
    dir (base_ref (base pullRequest)) Update.FETCH_TIMEOUT = inr tt.
Hypothesis headCurrent :
  git_head git (h ++ firstn 3 (rebaseScript dir url pullRequest onto)) dir
  = inr (Update.recordedHead pullRequest).
Hypothesis baseResolved :
  git_sha git (h ++ firstn 4 (rebaseScript dir url pullRequest onto))
    dir (base_ref (base pullRequest)) = inr onto.
Hypothesis rebaseDone :
  git_rebase git (h ++ firstn 5 (rebaseScript dir url pullRequest onto))
    dir onto = inr tt.
Hypothesis headAfter :
  git_head git (h ++ firstn 6 (rebaseScript dir url pullRequest onto)) dir
  = inr newHead.

Ltac run_rebase :=
  unfold Update.rebase;
  erewrite bind_return by (apply await_answered; exact cloneDone);
  erewrite bind_return by (apply await_answered; exact fetchDone);
  rewrite <- app_assoc; cbn [app];
  erewrite bind_return by (apply await_answered; exact deepenDone);
  rewrite <- app_assoc; cbn [app];
  erewrite bind_return by (apply await_answered; exact headCurrent);
  rewrite <- app_assoc; cbn [app];
  rewrite String.eqb_refl; cbn [negb];
  erewrite bind_return by (apply await_answered; exact baseResolved);
  rewrite <- app_assoc; cbn [app];
  erewrite bind_return by (apply await_answered; exact rebaseDone);
  rewrite <- app_assoc; cbn [app];
  erewrite bind_return by (apply await_answered; exact headAfter);
  rewrite <- app_assoc; cbn [app].

(** A rebase that leaves HEAD where it was is returned as it is: the
    recorded head SHA comes back, nothing is pushed and nothing waited
    for. *)
Theorem rebase_up_to_date :
  newHead = Update.recordedHead pullRequest ->
  Update.rebase git dir url pullRequest h
  = (Return (Update.recordedHead pullRequest),
     h ++ firstn 7 (rebaseScript dir url pullRequest onto)).
Proof.
  intros Hsame. run_rebase. rewrite Hsame, String.eqb_refl. reflexivity.
Qed.

(** A rebase that moved HEAD is force-pushed to the head branch; the
    new HEAD is returned after the settle delay.  A rejected push is
    fatal and not followed by the delay. *)
Theorem rebase_pushes :
  newHead <> Update.recordedHead pullRequest ->
  (git_push git (h ++ firstn 7 (rebaseScript dir url pullRequest onto))
     dir true (head_ref (head pullRequest)) = inr tt ->
   Update.rebase git dir url pullRequest h
   = (Return newHead, h ++ rebaseScript dir url pullRequest onto))
  /\ (forall reason,
        git_push git (h ++ firstn 7 (rebaseScript dir url pullRequest onto))
          dir true (head_ref (head pullRequest)) = inl reason ->
        Update.rebase git dir url pullRequest h
        = (Throw (Rejected reason),
           h ++ firstn 8 (rebaseScript dir url pullRequest onto))).
Proof.
  intros Hmoved. apply String.eqb_neq in Hmoved.
  split.
  - intros Hpush. run_rebase. rewrite Hmoved.
    erewrite (bind_return (A := unit)).
    2:{ erewrite bind_return by (apply await_answered; exact Hpush).
        rewrite <- app_assoc. cbn [app]. reflexivity. }
    unfold ret, rebaseScript, cloned, fetched, deepened.
    now rewrite <- app_assoc.
  - intros reason Hpush. run_rebase. rewrite Hmoved.
    apply bind_throw. apply bind_throw.
    unfold rebaseScript, cloned, fetched, deepened in Hpush |- *.
    cbn [firstn] in Hpush |- *.
    unfold await. cbn beta. rewrite Hpush, <- app_assoc. reflexivity.
Qed.

End RebaseRun.

(** ** The orchestrator *)

(** A pull request goes through exactly when none of its labels is
    blocking and every required label is among them. *)
Theorem skipPullRequest_false_iff context pullRequest :
  Orchestrator.skipPullRequest context pullRequest = false
  <-> (forall l, In l (labels pullRequest) ->
                 ~ In (label_name l) (blocking (config_labels (config context))))
      /\ (forall name, In name (required (config_labels (config context))) ->
                       exists l, In l (labels pullRequest) /\ label_name l = name).
Proof.
  unfold Orchestrator.skipPullRequest. split.
  - intros Hskip.
    destruct (existsb _ (labels pullRequest)) eqn:Hb; [discriminate|].
    split.
    + intros l Hl Hin.
      apply not_true_iff_false in Hb. apply Hb.
      apply existsb_exists. exists l. split; [exact Hl|].
      now apply includes_In.
    + intros name Hname.
      destruct (includes (map label_name (labels pullRequest)) name) eqn:Hn.
      * apply includes_In, in_map_iff in Hn as (l & Hl & Hin). now exists l.
      * apply not_true_iff_false in Hskip. exfalso. apply Hskip.
        apply existsb_exists. exists name. split; [exact Hname|].
        now rewrite Hn.
  - intros [Hblocking Hrequired].
    destruct (existsb _ (labels pullRequest)) eqn:Hb.
    + apply existsb_exists in Hb as (l & Hl & Hin).
      apply includes_In in Hin. now elim (Hblocking l Hl).
    + apply not_true_iff_false. intros Hex.
      apply existsb_exists in Hex as (name & Hname & Hmissing).
      destruct (Hrequired name Hname) as (l & Hl & <-).
      apply negb_true_iff, not_true_iff_false in Hmissing. apply Hmissing.
      apply includes_In, in_map_iff. now exists l.
Qed.

Section Batch.

Variable git : Git.
Variable tmpdir : (string -> M string) -> M string.
Variable merge : Context -> PullRequest -> string -> M unit.
Variable context : Context.

(** A pull request with a blocking label, or lacking a required one, is
    a benign skip of the handler, raised before [update] runs: nothing
    is requested, whatever the state and the other labels. *)
Theorem handler_skips_by_labels pullRequest h :
  (exists l, In l (labels pullRequest)
             /\ In (label_name l) (blocking (config_labels (config context))))
  \/ (exists name, In name (required (config_labels (config context)))
                   /\ ~ In name (map label_name (labels pullRequest))) ->
  Orchestrator.updateAndMergePullRequest git tmpdir merge context pullRequest h
  = (Throw NeutralExitError, h).
Proof.
  intros Hlabels.
  assert (Hskip : Orchestrator.skipPullRequest context pullRequest = true).
  { unfold Orchestrator.skipPullRequest.
    destruct (existsb _ (labels pullRequest)) eqn:Hb; [reflexivity|].
    destruct Hlabels as [(l & Hl & Hin) | (name & Hname & Hmissing)].
    - apply not_true_iff_false in Hb. exfalso. apply Hb.
      apply existsb_exists. exists l. split; [exact Hl | now apply includes_In].
    - apply existsb_exists. exists name. split; [exact Hname|].
      apply negb_true_iff, not_true_iff_false. intros Hin.
      now apply includes_In in Hin. }
  unfold Orchestrator.updateAndMergePullRequest.
  rewrite Hskip. now destruct (String.eqb (pr_state pullRequest) "open").
Qed.

(** The batch never fails: whatever a pull request throws, a benign
    skip or a fatal error, from [update], from the directory provider or
    from the final merge, it is caught and the loop returns. *)
Theorem automergeEach_never_throws pullRequests h :
  fst (Orchestrator.automergeEach git tmpdir merge context pullRequests h)
  = Return tt.
Proof.
  revert h. induction pullRequests as [|pr rest IH]; intros h; [reflexivity|].
  cbn [Orchestrator.automergeEach]. unfold bind, Orchestrator.caught.
  destruct (Orchestrator.updateAndMergePullRequest git tmpdir merge context pr h)
    as [[[]|e] h']; [apply IH|].
  destruct (isNeutral e); apply IH.
Qed.

Lemma automergeEach_step pr rest h :
  Orchestrator.automergeEach git tmpdir merge context (pr :: rest) h
  = Orchestrator.automergeEach git tmpdir merge context rest
      (snd (Orchestrator.updateAndMergePullRequest git tmpdir merge context pr h)).
Proof.
  cbn [Orchestrator.automergeEach]. unfold bind, Orchestrator.caught.
  destruct (Orchestrator.updateAndMergePullRequest git tmpdir merge context pr h)
    as [[[]|e] h']; [reflexivity|].
  now destruct (isNeutral e).
Qed.

(** The pull requests are handled one after the other, in the order of
    the listing: a batch is its first part followed by its second part,
    which starts from whatever the first part requested, however the
    pull requests of the first part ended. *)
Theorem automergeEach_app first second h :
  Orchestrator.automergeEach git tmpdir merge context (first ++ second) h
  = Orchestrator.automergeEach git tmpdir merge context second
      (snd (Orchestrator.automergeEach git tmpdir merge context first h)).
Proof.
  revert h. induction first as [|pr first IH]; intros h; [reflexivity|].
  cbn [app]. now rewrite !automergeEach_step, IH.
Qed.

(** Only pull requests that are open, free of blocking labels and carry
    every required label leave a trace: the batch is the batch of the
    eligible ones. *)
Theorem automergeEach_only_eligible pullRequests h :
  Orchestrator.automergeEach git tmpdir merge context pullRequests h
  = Orchestrator.automergeEach git tmpdir merge context
      (filter (eligible context) pullRequests) h.
Proof.
  revert h. induction pullRequests as [|pr rest IH]; intros h; [reflexivity|].
  cbn [filter]. destruct (eligible context pr) eqn:He.
  - now rewrite !automergeEach_step, IH.
  - rewrite automergeEach_step, IH.
    unfold eligible in He. unfold Orchestrator.updateAndMergePullRequest.
    destruct (String.eqb (pr_state pr) "open"); [|reflexivity].
    cbn [andb negb] in He. apply negb_false_iff in He. now rewrite He.
Qed.

End Batch.

(** ** The further properties on sample pull requests *)

Lemma update_skips_without_action_witness :
  Update.update (sampleGit "1111111" "2222222" "3333333")
    (sampleContext (Some downOctokit)) sampleDir sampleUrl
    (samplePR 3 "open" false "acme/widgets" ["bug"; "skip-validation"]) []
  = (Throw NeutralExitError, []).
Proof.
  apply update_skips_without_action. right. reflexivity.
Defined.

Lemma update_bypass_dispatch_witness :
  Update.update (sampleGit "1111111" "2222222" "3333333")
    (sampleContext (Some (stateOctokit "clean" upToDate))) sampleDir sampleUrl
    (samplePR 3 "open" false "acme/widgets" ["skip-validation"; "automerge"]) []
  = (Return "1111111", [PullsGet "acme" "widgets" 3]).
Proof.
  pose proof (update_bypass_dispatch (sampleGit "1111111" "2222222" "3333333")
                (sampleContext (Some (stateOctokit "clean" upToDate)))
                sampleDir sampleUrl
                (samplePR 3 "open" false "acme/widgets"
                   ["skip-validation"; "automerge"])
                [] "automerge") as H.
  exact (H eq_refl eq_refl eq_refl eq_refl).
Defined.

Lemma update_null_client_witness :
  Update.update (sampleGit "1111111" "2222222" "3333333")
    (sampleContext None) sampleDir sampleUrl pr42 []
  = (Throw TypeError, []).
Proof.
  pose proof (update_null_client (sampleGit "1111111" "2222222" "3333333")
                (sampleContext None) sampleDir sampleUrl pr42 [] "automerge")
    as H.
  exact (H eq_refl eq_refl eq_refl eq_refl eq_refl).
Defined.

Lemma update_stable_dispatch_witness :
  Update.update (sampleGit "1111111" "2222222" "3333333")
    (sampleContext (Some (approvedOctokit "behind" (mergedTo "abc123"))))
    sampleDir sampleUrl pr42 []
  = (Return "abc123",
     [PullsListReviews "acme" "widgets" 42;
      IssuesListEvents "acme" "widgets" 42;
      PullsGetCommentsForReview "acme" "widgets" 42 2;
      PullsGet "acme" "widgets" 42;
      ReposMerge "acme" "widgets" "feature" "master";
      SetTimeout 30000]).
Proof.
  pose proof (update_stable_dispatch (sampleGit "1111111" "2222222" "3333333")
                (sampleContext (Some (approvedOctokit "behind" (mergedTo "abc123"))))
                sampleDir sampleUrl pr42 [] "automerge"
                eq_refl eq_refl eq_refl eq_refl
                (approvedOctokit "behind" (mergedTo "abc123"))
                [PullsListReviews "acme" "widgets" 42;
                 IssuesListEvents "acme" "widgets" 42;
                 PullsGetCommentsForReview "acme" "widgets" 42 2]) as H.
  exact (H eq_refl eq_refl eq_refl eq_refl).
Defined.

Lemma update_checks_arguments_witness :
  Update.update (sampleGit "1111111" "2222222" "3333333")
    (sampleContext (Some (approvedOctokit "behind" (mergedTo "abc123"))))
    (Some "") sampleUrl pr42 []
  = (Throw (Error "invalid arguments!"),
     [PullsListReviews "acme" "widgets" 42;
      IssuesListEvents "acme" "widgets" 42;
      PullsGetCommentsForReview "acme" "widgets" 42 2]).
Proof.
  pose proof (update_checks_arguments (sampleGit "1111111" "2222222" "3333333")
                (sampleContext (Some (approvedOctokit "behind" (mergedTo "abc123"))))
                (approvedOctokit "behind" (mergedTo "abc123"))
                (Some "") sampleUrl pr42 []
                [PullsListReviews "acme" "widgets" 42;
                 IssuesListEvents "acme" "widgets" 42;
                 PullsGetCommentsForReview "acme" "widgets" 42 2]
                "automerge") as H.
  exact (H eq_refl eq_refl eq_refl eq_refl eq_refl eq_refl eq_refl).
Defined.

Lemma update_unstable_never_executes_witness :
  Update.update (sampleGit "1111111" "2222222" "3333333")
    (sampleContext (Some readOnlyOctokit)) sampleDir sampleUrl pr42 []
  = (Throw (Rejected "403"),
     [PullsListReviews "acme" "widgets" 42;
      IssuesListEvents "acme" "widgets" 42;
      IssuesUpdate "acme" "widgets" 42 []])
  /\ Update.update (sampleGit "1111111" "2222222" "3333333")
       (sampleContext (Some mutedOctokit)) sampleDir sampleUrl pr42 []
     = (Throw (Rejected "403"),
        [PullsListReviews "acme" "widgets" 42;
         IssuesListEvents "acme" "widgets" 42;
         IssuesUpdate "acme" "widgets" 42 [];
         IssuesCreateComment "acme" "widgets" 42 Update.AUTOMERGE_LABEL_DROPPED]).
Proof.
  split.
  - pose proof (update_unstable_never_executes
                  (sampleGit "1111111" "2222222" "3333333")
                  (sampleContext (Some readOnlyOctokit)) readOnlyOctokit
                  sampleDir sampleUrl pr42 []
                  [PullsListReviews "acme" "widgets" 42;
                   IssuesListEvents "acme" "widgets" 42]
                  "automerge") as H.
    exact (proj1 (H eq_refl eq_refl eq_refl eq_refl eq_refl eq_refl)
             "403" eq_refl).
  - pose proof (update_unstable_never_executes
                  (sampleGit "1111111" "2222222" "3333333")
                  (sampleContext (Some mutedOctokit)) mutedOctokit
                  sampleDir sampleUrl pr42 []
                  [PullsListReviews "acme" "widgets" 42;
                   IssuesListEvents "acme" "widgets" 42]
                  "automerge") as H.
    exact (proj2 (H eq_refl eq_refl eq_refl eq_refl eq_refl eq_refl)
             eq_refl "403" eq_refl).
Defined.

Lemma isPrReviewed_no_reviews_witness :
  Update.isPrReviewed (Some (stateOctokit "clean" upToDate)) pr42 sampleActions []
  = (Return true,
     [PullsListReviews "acme" "widgets" 42; IssuesListEvents "acme" "widgets" 42]).
Proof.
  exact (isPrReviewed_no_reviews (stateOctokit "clean" upToDate) pr42
           sampleActions [] [labeledAt "automerge" 100] noComments
           (snapshot_serves _ _ _ _ _ _) [] eq_refl eq_refl).
Defined.

Lemma isPrReviewed_older_reviews_ignored_witness :
  Update.isPrReviewed
    (Some (snapshotOctokit [reviewAt 1 "CHANGES_REQUESTED" 50] relabeledTimeline
             (oneCommentOn 1) "clean" upToDate))
    pr42 sampleActions []
  = (Return true,
     [PullsListReviews "acme" "widgets" 42; IssuesListEvents "acme" "widgets" 42]).
Proof.
  exact (isPrReviewed_older_reviews_ignored _ pr42 sampleActions
           [reviewAt 1 "CHANGES_REQUESTED" 50] relabeledTimeline
           (oneCommentOn 1) (snapshot_serves _ _ _ _ _ _)
           [labeledAt "automerge" 10] (labeledAt "automerge" 100)
           [labeledAt "bug" 150] [] (reviewAt 1 "CHANGES_REQUESTED" 50) []
           eq_refl eq_refl eq_refl eq_refl eq_refl eq_refl).
Defined.

Lemma isPrReviewed_stable_iff_witness :
  fst (Update.isPrReviewed
         (Some (snapshotOctokit
                  [reviewAt 1 "CHANGES_REQUESTED" 50; reviewAt 2 "COMMENTED" 100]
                  relabeledTimeline noComments "clean" upToDate))
         pr42 sampleActions [])
  = Return false.
Proof.
  refine (isPrReviewed_stable_iff _ pr42 sampleActions
            [reviewAt 1 "CHANGES_REQUESTED" 50; reviewAt 2 "COMMENTED" 100]
            relabeledTimeline noComments (snapshot_serves _ _ _ _ _ _)
            [labeledAt "automerge" 10] (labeledAt "automerge" 100)
            [labeledAt "bug" 150] [] eq_refl eq_refl eq_refl eq_refl eq_refl _).
  repeat constructor.
Defined.

Lemma merge_failures_witness :
  Update.merge (Some downOctokit) pr42 []
  = (Throw (Rejected "503"), [PullsGet "acme" "widgets" 42])
  /\ Update.merge (Some readOnlyOctokit) pr42 []
     = (Throw (Rejected "409"),
        [PullsGet "acme" "widgets" 42;
         ReposMerge "acme" "widgets" "feature" "master"])
  /\ Update.merge (Some (stateOctokit "behind" bodilessMerge)) pr42 []
     = (Throw TypeError,
        [PullsGet "acme" "widgets" 42;
         ReposMerge "acme" "widgets" "feature" "master"]).
Proof.
  split; [|split].
  - exact (proj1 (merge_failures downOctokit pr42 []) "503" eq_refl).
  - exact (proj1 (proj2 (merge_failures readOnlyOctokit pr42 []) eq_refl)
             "409" eq_refl).
  - refine (proj2 (proj2 (merge_failures (stateOctokit "behind" bodilessMerge)
                            pr42 []) eq_refl) 202 eq_refl _).
    discriminate.
Defined.

Lemma rebase_up_to_date_witness :
  Update.rebase (sampleGit "1111111" "1111111" "3333333") sampleDir sampleUrl
    pr42 []
  = (Return "1111111",
     [GitClone sampleUrl sampleDir "feature"; GitFetch sampleDir "master";
      GitFetchUntilMergeBase sampleDir "master" 60000; GitHead sampleDir;
      GitSha sampleDir "master"; GitRebase sampleDir "3333333";
      GitHead sampleDir]).
Proof.
  exact (rebase_up_to_date (sampleGit "1111111" "1111111" "3333333")
           sampleDir sampleUrl pr42 [] "3333333" "1111111"
           eq_refl eq_refl eq_refl eq_refl eq_refl eq_refl eq_refl eq_refl).
Defined.

Lemma rebase_pushes_witness :
  Update.rebase (sampleGit "1111111" "2222222" "3333333") sampleDir sampleUrl
    pr42 []
  = (Return "2222222", rebaseScript sampleDir sampleUrl pr42 "3333333")
  /\ Update.rebase (protectedGit "1111111" "2222222" "3333333") sampleDir
       sampleUrl pr42 []
     = (Throw (Rejected "protected branch"),
        firstn 8 (rebaseScript sampleDir sampleUrl pr42 "3333333")).
Proof.
  assert (Hmoved : "2222222" <> Update.recordedHead pr42) by (cbn; discriminate).
  split.
  - exact (proj1 (rebase_pushes (sampleGit "1111111" "2222222" "3333333")
                    sampleDir sampleUrl pr42 [] "3333333" "2222222"
                    eq_refl eq_refl eq_refl eq_refl eq_refl eq_refl eq_refl
                    Hmoved) eq_refl).
  - exact (proj2 (rebase_pushes (protectedGit "1111111" "2222222" "3333333")
                    sampleDir sampleUrl pr42 [] "3333333" "2222222"
                    eq_refl eq_refl eq_refl eq_refl eq_refl eq_refl eq_refl
                    Hmoved) "protected branch" eq_refl).
Defined.

Lemma skipPullRequest_false_iff_witness :
  Orchestrator.skipPullRequest (sampleContext None) pr42 = false
  /\ Orchestrator.skipPullRequest (sampleContext None) pr7 <> false.
Proof.
  split.
  - apply (proj2 (skipPullRequest_false_iff (sampleContext None) pr42)).
    split.
    + intros l [<- | []] [H | []]. discriminate H.
    + intros name [].
  - intros H.
    apply (proj1 (skipPullRequest_false_iff (sampleContext None) pr7)) in H.
    destruct H as [H _].
    apply (H {| label_name := "blocking-label" |}); cbn; auto.
Defined.

Lemma handler_skips_by_labels_witness :
  Orchestrator.updateAndMergePullRequest
    (sampleGit "1111111" "2222222" "3333333") sampleTmpdir sampleMerge
    (sampleContext (Some (stateOctokit "behind" (mergedTo "abc123")))) pr7 []
  = (Throw NeutralExitError, []).
Proof.
  apply handler_skips_by_labels. left.
  exists {| label_name := "blocking-label" |}. cbn. auto.
Defined.

Lemma rebase_follows_script_witness :
  exists n,
    snd (Update.rebase (protectedGit "1111111" "2222222" "3333333")
           sampleDir sampleUrl pr42 [])
    = [] ++ firstn n (rebaseScript sampleDir sampleUrl pr42 "3333333").
Proof.
  exact (proj1 (rebase_follows_script
                  (protectedGit "1111111" "2222222" "3333333")
                  sampleDir sampleUrl pr42 [])
           "3333333" eq_refl).
Defined.

Lemma isPrReviewed_changes_requested_after_label_witness :
  fst (Update.isPrReviewed
         (Some (snapshotOctokit
                  [reviewAt 1 "APPROVED" 50; reviewAt 2 "CHANGES_REQUESTED" 100]
                  relabeledTimeline (oneCommentOn 2) "clean" upToDate))
         pr42 sampleActions [])
  = Return false
  /\ fst (Update.isPrReviewed
            (Some (snapshotOctokit
                     [reviewAt 1 "APPROVED" 50; reviewAt 2 "CHANGES_REQUESTED" 100]
                     relabeledTimeline noComments "clean" upToDate))
            pr42 sampleActions [])
     = Return true.
Proof.
  split.
  - apply (proj1 (isPrReviewed_changes_requested_after_label _ pr42
                    sampleActions
                    [reviewAt 1 "APPROVED" 50; reviewAt 2 "CHANGES_REQUESTED" 100]
                    relabeledTimeline (oneCommentOn 2)
                    (snapshot_serves _ _ _ _ _ _)
                    [labeledAt "automerge" 10] (labeledAt "automerge" 100)
                    [labeledAt "bug" 150] (reviewAt 2 "CHANGES_REQUESTED" 100) []
                    eq_refl eq_refl eq_refl eq_refl
                    (or_intror (or_introl eq_refl)) eq_refl eq_refl eq_refl)).
    + repeat constructor.
    + exists {| comment_body := "nit" |}, []. reflexivity.
  - apply (proj2 (isPrReviewed_changes_requested_after_label _ pr42
                    sampleActions
                    [reviewAt 1 "APPROVED" 50; reviewAt 2 "CHANGES_REQUESTED" 100]
                    relabeledTimeline noComments
                    (snapshot_serves _ _ _ _ _ _)
                    [labeledAt "automerge" 10] (labeledAt "automerge" 100)
                    [labeledAt "bug" 150] (reviewAt 2 "CHANGES_REQUESTED" 100) []
                    eq_refl eq_refl eq_refl eq_refl
                    (or_intror (or_introl eq_refl)) eq_refl eq_refl eq_refl)).
    + reflexivity.
    + intros r' [<- | [<- | []]] Hne Hs.
      * discriminate Hs.
      * now elim Hne.
Defined.
